(** * BMP180 driver (drivers/i2c/bmp180_driver.go)

    A shallow embedding of the gobot BMP180 driver: calibration decoding,
    the fixed-point compensation arithmetic, the raw acquisition sequences
    and the polling loop, together with the properties stated about them. *)

From Stdlib Require Import ZArith List String Bool Lia SpecFloat.
From Stdlib.Strings Require Import Byte.
Import ListNotations.
Local Open Scope Z_scope.

(** ** Go's fixed-width integers

    A value of a [w]-bit Go integer type is a [Z] inside the range of the
    type; every operation writes its wrap-around out. *)
Module Go.

Definition uint8 (z : Z) : Z := Z.land z (Z.ones 8).
Definition uint16 (z : Z) : Z := Z.land z (Z.ones 16).
Definition uint32 (z : Z) : Z := Z.land z (Z.ones 32).

(** [uint] is the platform word; 64 bits on the usual targets. None of the
    four oversampling modes comes near its width. *)
Definition uintBits : Z := 64.
Definition uint (z : Z) : Z := Z.land z (Z.ones uintBits).

Definition int16 (z : Z) : Z :=
  let u := uint16 z in if Z.testbit u 15 then u - 2 ^ 16 else u.
Definition int32 (z : Z) : Z :=
  let u := uint32 z in if Z.testbit u 31 then u - 2 ^ 32 else u.

(** int32 arithmetic: [+ - * <<] wrap, [>>] is an arithmetic shift, [/]
    truncates toward zero and panics on a zero divisor ([None]). *)
Definition add32 (a b : Z) : Z := int32 (a + b).
Definition sub32 (a b : Z) : Z := int32 (a - b).
Definition mul32 (a b : Z) : Z := int32 (a * b).
Definition shl32 (a n : Z) : Z := int32 (Z.shiftl a n).
Definition shr32 (a n : Z) : Z := Z.shiftr a n.
Definition quo32 (a b : Z) : option Z :=
  if b =? 0 then None else Some (int32 (Z.quot a b)).

(** uint32 arithmetic. *)
Definition umul32 (a b : Z) : Z := uint32 (a * b).
Definition ushl32 (a n : Z) : Z := uint32 (Z.shiftl a n).
Definition ushr32 (a n : Z) : Z := Z.shiftr a n.
Definition uquo32 (a b : Z) : option Z :=
  if b =? 0 then None else Some (Z.quot a b).

(** uint and byte arithmetic used on the oversampling mode. *)
Definition ushl (a n : Z) : Z := uint (Z.shiftl a n).
Definition usub (a b : Z) : Z := uint (a - b).
Definition add8 (a b : Z) : Z := uint8 (a + b).

(** float32: IEEE 754 binary32, round to nearest even. *)
Definition float32 : Type := spec_float.
Definition float32_of_int (z : Z) : float32 := binary_normalize 24 128 z 0 false.
Definition fdiv32 (x y : float32) : float32 := SFdiv 24 128 x y.

End Go.

(** ** Data model *)

Definition byte_to_Z (b : byte) : Z := Z.of_N (Byte.to_N b).

(** Conversion to [byte] keeps the low eight bits. *)
Definition byte_of_Z (z : Z) : byte :=
  match Byte.of_N (Z.to_N (Go.uint8 z)) with
  | Some b => b
  | None => x00
  end.

Definition bmp180Address : Z := 0x77.
Definition bmp180RegisterAC1MSB : Z := 0xAA.
Definition bmp180RegisterCtl : Z := 0xF4.
Definition bmp180CmdTemp : Z := 0x2E.
Definition bmp180RegisterTempMSB : Z := 0xF6.
Definition bmp180CmdPressure : Z := 0x34.
Definition bmp180RegisterPressureMSB : Z := 0xF6.

(** time.Duration counts nanoseconds. *)
Definition Millisecond : Z := 1000000.

(** BMP180OversamplingMode is a [uint] with four named values. *)
Definition BMP180OversamplingMode : Type := Z.

Definition BMP180UltraLowPower : BMP180OversamplingMode := 0.
Definition BMP180Standard : BMP180OversamplingMode := 1.
Definition BMP180HighResolution : BMP180OversamplingMode := 2.
Definition BMP180UltraHighResolution : BMP180OversamplingMode := 3.

Definition oversamplingModes : list BMP180OversamplingMode :=
  [BMP180UltraLowPower; BMP180Standard; BMP180HighResolution; BMP180UltraHighResolution].

Record calibrationCoefficients : Type := mkCal {
  ac1 : Z; ac2 : Z; ac3 : Z;
  ac4 : Z; ac5 : Z; ac6 : Z;
  b1 : Z; b2 : Z;
  mb : Z; mc : Z; md : Z
}.

Definition error : Type := string.

(** The bus the driver talks to. The interface is declared elsewhere in the
    package; the driver uses these three methods of it. A method returns its
    results together with the connection's next state. *)
Class I2c (C : Type) : Type := {
  I2cStart : C -> Z -> option error * C;
  I2cWrite : C -> Z -> list byte -> option error * C;
  I2cRead : C -> Z -> Z -> (list byte * option error) * C
}.

Record BMP180Driver (C : Type) : Type := mkDriver {
  name : string;
  connection : C;
  interval : Z;
  Pressure : Go.float32;
  Temperature : Go.float32;
  mode : BMP180OversamplingMode;
  calibration : calibrationCoefficients
}.
Arguments mkDriver {C}.
Arguments name {C}.
Arguments connection {C}.
Arguments interval {C}.
Arguments Pressure {C}.
Arguments Temperature {C}.
Arguments mode {C}.
Arguments calibration {C}.

(** What the driver does to its surroundings, in order: bus calls with their
    results, sleeps, and errors published on the Error event. *)
Inductive event : Type :=
| EvStart (address : Z) (err : option error)
| EvWrite (address : Z) (data : list byte) (err : option error)
| EvRead (address : Z) (n : Z) (ret : list byte) (err : option error)
| EvSleep (d : Z)
| EvPublish (err : error).

Record state (C : Type) : Type := mkState {
  dev : BMP180Driver C;
  trace : list event
}.
Arguments mkState {C}.
Arguments dev {C}.
Arguments trace {C}.

(** Methods on [*BMP180Driver] run in a state monad over the device and the
    trace; [None] is a run-time panic. *)
Definition M (C A : Type) : Type := state C -> option (A * state C).

Definition ret {C A} (a : A) : M C A := fun s => Some (a, s).
Definition bind {C A B} (m : M C A) (k : A -> M C B) : M C B :=
  fun s => match m s with
           | Some (a, s') => k a s'
           | None => None
           end.
Definition orPanic {C A} (o : option A) : M C A :=
  fun s => match o with
           | Some a => Some (a, s)
           | None => None
           end.
Definition getDev {C} : M C (BMP180Driver C) := fun s => Some (dev s, s).
Definition setDev {C} (f : BMP180Driver C -> BMP180Driver C) : M C unit :=
  fun s => Some (tt, mkState (f (dev s)) (trace s)).
Definition emit {C} (e : event) : M C unit :=
  fun s => Some (tt, mkState (dev s) (trace s ++ [e])).

Declare Scope go_scope.
Delimit Scope go_scope with go.
Notation "x <- m ;; k" := (bind m (fun x => k))
  (at level 61, m at next level, right associativity) : go_scope.
Notation "' p <- m ;; k" := (bind m (fun x => let p := x in k))
  (at level 61, p pattern, m at next level, right associativity) : go_scope.
Notation "m ;;; k" := (bind m (fun _ => k))
  (at level 61, right associativity) : go_scope.
Notation "'let?' x := o 'in' k" :=
  (match o with Some x => k | None => None end)
  (at level 10, x name, o at level 100, k at level 200, only parsing).

Definition setConnection {C} (c : C) (d : BMP180Driver C) : BMP180Driver C :=
  mkDriver (name d) c (interval d) (Pressure d) (Temperature d) (mode d) (calibration d).
Definition setTemperature {C} (t : Go.float32) (d : BMP180Driver C) : BMP180Driver C :=
  mkDriver (name d) (connection d) (interval d) (Pressure d) t (mode d) (calibration d).
Definition setPressure {C} (p : Go.float32) (d : BMP180Driver C) : BMP180Driver C :=
  mkDriver (name d) (connection d) (interval d) p (Temperature d) (mode d) (calibration d).
Definition setCalibration {C} (c : calibrationCoefficients) (d : BMP180Driver C)
  : BMP180Driver C :=
  mkDriver (name d) (connection d) (interval d) (Pressure d) (Temperature d) (mode d) c.

Definition zeroCalibration : calibrationCoefficients := mkCal 0 0 0 0 0 0 0 0 0 0 0.

(** NewBMP180Driver(c, mode, i...). The Eventer it creates and the Error
    event it registers live in the event facility outside this file; here
    publishing shows up as [EvPublish] in the trace. *)
Definition NewBMP180Driver {C} (c : C) (m : BMP180OversamplingMode) (i : list Z)
  : BMP180Driver C :=
  let d := mkDriver "BMP180" c (10 * Millisecond) (S754_zero false) (S754_zero false)
                    m zeroCalibration in
  match i with
  | i0 :: _ => mkDriver (name d) (connection d) i0 (Pressure d) (Temperature d)
                        (mode d) (calibration d)
  | [] => d
  end.

Definition Name {C} (d : BMP180Driver C) : string := name d.
Definition SetName {C} (n : string) (d : BMP180Driver C) : BMP180Driver C :=
  mkDriver n (connection d) (interval d) (Pressure d) (Temperature d) (mode d) (calibration d).
Definition Mode {C} (d : BMP180Driver C) : BMP180OversamplingMode := mode d.
Definition SetMode {C} (m : BMP180OversamplingMode) (d : BMP180Driver C) : BMP180Driver C :=
  mkDriver (name d) (connection d) (interval d) (Pressure d) (Temperature d) m (calibration d).

(** ** Compensation *)

Section Compensation.
Context {C : Type}.

Definition calculateB5 (d : BMP180Driver C) (rawTemp : Z) : option Z :=
  let c := calibration d in
  let x1 := Go.shr32 (Go.mul32 (Go.sub32 (Go.int32 rawTemp) (Go.int32 (ac6 c)))
                               (Go.int32 (ac5 c))) 15 in
  let? x2 := Go.quo32 (Go.shl32 (Go.int32 (mc c)) 11) (Go.add32 x1 (Go.int32 (md c))) in
  Some (Go.add32 x1 x2).

Definition calculateTemp (d : BMP180Driver C) (rawTemp : Z) : option Go.float32 :=
  let? b5 := calculateB5 d rawTemp in
  let t := Go.shr32 (Go.add32 b5 8) 4 in
  Some (Go.fdiv32 (Go.float32_of_int t) (Go.float32_of_int 10)).

Definition calculatePressure (d : BMP180Driver C) (rawTemp rawPressure : Z)
  : option Go.float32 :=
  let c := calibration d in
  let? b5 := calculateB5 d rawTemp in
  let b6 := Go.sub32 b5 4000 in
  let x1 := Go.shr32 (Go.mul32 (Go.int32 (b2 c)) (Go.shr32 (Go.mul32 b6 b6) 12)) 11 in
  let x2 := Go.shr32 (Go.mul32 (Go.int32 (ac2 c)) b6) 11 in
  let x3 := Go.add32 x1 x2 in
  let b3 := Go.shr32 (Go.add32 (Go.shl32 (Go.add32 (Go.mul32 (Go.int32 (ac1 c)) 4) x3)
                                         (mode d)) 2) 2 in
  let x1 := Go.shr32 (Go.mul32 (Go.int32 (ac3 c)) b6) 13 in
  let x2 := Go.shr32 (Go.mul32 (Go.int32 (b1 c)) (Go.shr32 (Go.mul32 b6 b6) 12)) 16 in
  let x3 := Go.shr32 (Go.add32 (Go.add32 x1 x2) 2) 2 in
  let b4 := Go.ushr32 (Go.umul32 (Go.uint32 (ac4 c)) (Go.uint32 (Go.add32 x3 32768))) 15 in
  let b7 := Go.umul32 (Go.uint32 (Go.sub32 rawPressure b3)) (Go.ushr32 50000 (mode d)) in
  let? p := (if b7 <? 0x80000000
             then let? q := Go.uquo32 (Go.ushl32 b7 1) b4 in Some (Go.int32 q)
             else let? q := Go.uquo32 b7 b4 in Some (Go.int32 (Go.ushl32 q 1))) in
  let x1 := Go.mul32 (Go.shr32 p 8) (Go.shr32 p 8) in
  let x1 := Go.shr32 (Go.mul32 x1 3038) 16 in
  let x2 := Go.shr32 (Go.mul32 (-7357) p) 16 in
  Some (Go.float32_of_int (Go.add32 p (Go.shr32 (Go.add32 (Go.add32 x1 x2) 3791) 4))).

End Compensation.

(** ** Calibration decoding *)

(** binary.Read(buf, binary.BigEndian, &v) for a 16-bit [v]: two bytes are
    taken from the buffer, the first being the high one. With fewer than two
    bytes left the buffer is drained, the read reports an error and [v] keeps
    its value. *)
Definition readUint16 (buf : list byte) : option Z * list byte :=
  match buf with
  | hi :: lo :: rest =>
      (Some (Z.lor (byte_to_Z lo) (Z.shiftl (byte_to_Z hi) 8)), rest)
  | _ => (None, [])
  end.

Definition readInt16 (buf : list byte) : option Z * list byte :=
  match readUint16 buf with
  | (Some u, rest) => (Some (Go.int16 u), rest)
  | (None, rest) => (None, rest)
  end.

(** The value a field holds after a read whose error is ignored. *)
Definition orKeep (old : Z) (r : option Z) : Z :=
  match r with
  | Some v => v
  | None => old
  end.

(** The eleven binary.Read calls of [initialization], in source order. *)
Definition readCoefficients (c : calibrationCoefficients) (buf : list byte)
  : calibrationCoefficients :=
  let '(r1, buf) := readInt16 buf in
  let '(r2, buf) := readInt16 buf in
  let '(r3, buf) := readInt16 buf in
  let '(r4, buf) := readUint16 buf in
  let '(r5, buf) := readUint16 buf in
  let '(r6, buf) := readUint16 buf in
  let '(r7, buf) := readInt16 buf in
  let '(r8, buf) := readInt16 buf in
  let '(r9, buf) := readInt16 buf in
  let '(r10, buf) := readInt16 buf in
  let '(r11, _) := readInt16 buf in
  mkCal (orKeep (ac1 c) r1) (orKeep (ac2 c) r2) (orKeep (ac3 c) r3)
        (orKeep (ac4 c) r4) (orKeep (ac5 c) r5) (orKeep (ac6 c) r6)
        (orKeep (b1 c) r7) (orKeep (b2 c) r8)
        (orKeep (mb c) r9) (orKeep (mc c) r10) (orKeep (md c) r11).

(** ** Bus access, acquisition and the polling loop *)

Section Driver.
Context {C : Type} {bus : I2c C}.
Local Open Scope go_scope.

(** The three calls on [d.connection], each recorded in the trace. *)
Definition i2cStart (address : Z) : M C (option error) :=
  fun s =>
    let '(err, c) := I2cStart (connection (dev s)) address in
    Some (err, mkState (setConnection c (dev s)) (trace s ++ [EvStart address err])).

Definition i2cWrite (address : Z) (data : list byte) : M C (option error) :=
  fun s =>
    let '(err, c) := I2cWrite (connection (dev s)) address data in
    Some (err, mkState (setConnection c (dev s)) (trace s ++ [EvWrite address data err])).

Definition i2cRead (address : Z) (n : Z) : M C (list byte * option error) :=
  fun s =>
    let '((r, err), c) := I2cRead (connection (dev s)) address n in
    Some ((r, err), mkState (setConnection c (dev s)) (trace s ++ [EvRead address n r err])).

Definition sleep (d : Z) : M C unit := emit (EvSleep d).
Definition publish (err : error) : M C unit := emit (EvPublish err).

Definition read (address : byte) (n : Z) : M C (list byte * option error) :=
  err <- i2cWrite bmp180Address [address] ;;
  match err with
  | Some e => ret ([], Some e)
  | None =>
      '(r, err) <- i2cRead bmp180Address n ;;
      match err with
      | Some e => ret ([], Some e)
      | None => ret (r, None)
      end
  end.

Definition initialization : M C (option error) :=
  err <- i2cStart bmp180Address ;;
  match err with
  | Some e => ret (Some e)
  | None =>
      '(coefficients, err) <- read (byte_of_Z bmp180RegisterAC1MSB) 22 ;;
      match err with
      | Some e => ret (Some e)
      | None =>
          setDev (fun d => setCalibration (readCoefficients (calibration d) coefficients) d) ;;;
          ret None
      end
  end.

Definition rawTemp : M C (Z * option error) :=
  err <- i2cWrite bmp180Address [byte_of_Z bmp180RegisterCtl; byte_of_Z bmp180CmdTemp] ;;
  match err with
  | Some e => ret (0, Some e)
  | None =>
      sleep (5 * Millisecond) ;;;
      '(r, err) <- read (byte_of_Z bmp180RegisterTempMSB) 2 ;;
      match err with
      | Some e => ret (0, Some e)
      | None => ret (orKeep 0 (fst (readInt16 r)), None)
      end
  end.

(** [ret[i]]: indexing past the end of the slice panics. *)
Definition index (r : list byte) (i : nat) : M C Z :=
  orPanic (option_map byte_to_Z (nth_error r i)).

(** The [switch] on the mode; it has no default case. *)
Definition settle (m : BMP180OversamplingMode) : M C unit :=
  if m =? BMP180UltraLowPower then sleep (5 * Millisecond)
  else if m =? BMP180Standard then sleep (8 * Millisecond)
  else if m =? BMP180HighResolution then sleep (14 * Millisecond)
  else if m =? BMP180UltraHighResolution then sleep (26 * Millisecond)
  else ret tt.

Definition rawPressure : M C (Z * option error) :=
  d <- getDev ;;
  err <- i2cWrite bmp180Address
           [byte_of_Z bmp180RegisterCtl;
            byte_of_Z (Go.add8 bmp180CmdPressure (Go.uint8 (Go.ushl (mode d) 6)))] ;;
  match err with
  | Some e => ret (0, Some e)
  | None =>
      d <- getDev ;;
      settle (mode d) ;;;
      '(r, err) <- read (byte_of_Z bmp180RegisterPressureMSB) 3 ;;
      match err with
      | Some e => ret (0, Some e)
      | None =>
          r0 <- index r 0 ;;
          r1 <- index r 1 ;;
          r2 <- index r 2 ;;
          d <- getDev ;;
          ret (Go.shr32 (Go.add32 (Go.add32 (Go.shl32 (Go.int32 r0) 16)
                                            (Go.shl32 (Go.int32 r1) 8))
                                  (Go.int32 r2))
                        (Go.usub 8 (mode d)), None)
      end
  end.

(** One pass through the body of the [for] loop of the goroutine. Both
    [continue] statements leave the body before its last statement. *)
Definition cycle : M C unit :=
  '(rawT, err) <- rawTemp ;;
  match err with
  | Some e => publish e
  | None =>
      d <- getDev ;;
      t <- orPanic (calculateTemp d rawT) ;;
      setDev (setTemperature t) ;;;
      '(rawP, err) <- rawPressure ;;
      match err with
      | Some e => publish e
      | None =>
          d <- getDev ;;
          p <- orPanic (calculatePressure d rawT rawP) ;;
          setDev (setPressure p) ;;;
          d <- getDev ;;
          sleep (interval d)
      end
  end.

(** The first [n] passes of the endless loop. *)
Fixpoint loop (n : nat) : M C unit :=
  match n with
  | O => ret tt
  | S k => cycle ;;; loop k
  end.

(** Start returns the error of [initialization], or [nil] after launching
    the goroutine; the flag says whether it was launched. *)
Definition Start : M C (option error * bool) :=
  err <- initialization ;;
  match err with
  | Some e => ret (Some e, false)
  | None => ret (None, true)
  end.

(** Start followed by the first [n] passes of the goroutine it launched,
    if any. *)
Definition run (n : nat) : M C (option error) :=
  '(err, launched) <- Start ;;
  (if launched : bool then loop n else ret tt) ;;;
  ret err.

Definition Halt : M C (option error) := ret None.

End Driver.

(** ** A scripted bus

    A connection that answers each call with the next entry of a script:
    the bytes to hand back, or an error. An exhausted script answers with
    success and no bytes. *)
Inductive reply : Type :=
| Ack (data : list byte)
| Nak (err : error).

Definition scriptedBus : Type := list reply.

Definition nextReply (c : scriptedBus) : reply * scriptedBus :=
  match c with
  | r :: rest => (r, rest)
  | [] => (Ack [], [])
  end.

#[global] Instance scripted_I2c : I2c scriptedBus := {
  I2cStart c _ :=
    match nextReply c with
    | (Ack _, rest) => (None, rest)
    | (Nak e, rest) => (Some e, rest)
    end;
  I2cWrite c _ _ :=
    match nextReply c with
    | (Ack _, rest) => (None, rest)
    | (Nak e, rest) => (Some e, rest)
    end;
  I2cRead c _ _ :=
    match nextReply c with
    | (Ack data, rest) => ((data, None), rest)
    | (Nak e, rest) => (([], Some e), rest)
    end
}.

Definition boot {C} (d : BMP180Driver C) : state C := mkState d [].

Definition refCal : calibrationCoefficients :=
  mkCal 408 (-72) (-14383) 32741 32757 23153 6190 4 (-32767) (-8711) 2868.

(** Big-endian encoding of a 16-bit word. *)
Definition be16 (v : Z) : list byte := [byte_of_Z (Z.shiftr v 8); byte_of_Z v].

Definition refBlock : list byte :=
  flat_map be16 [408; -72; -14383; 32741; 32757; 23153; 6190; 4; -32767; -8711; 2868].

(** ** The documented algorithm and layout

    The compensation steps, the calibration layout and the acquisition
    values as the device documentation words them, written with plain
    integer arithmetic: wrap-around as a remainder, a sign-extending shift
    as a floored division, a left shift as a multiplication. The driver's
    functions above are compared against these. *)
Module Documented.

(** A result held in a 32-bit signed, resp. unsigned, integer. *)
Definition s32 (x : Z) : Z := (x + 2 ^ 31) mod 2 ^ 32 - 2 ^ 31.
Definition u32 (x : Z) : Z := x mod 2 ^ 32.

(** Right shift of a signed value, sign-extending; of an unsigned value it
    is the same floored division. *)
Definition sar (x n : Z) : Z := x / 2 ^ n.
Definition shl (x n : Z) : Z := x * 2 ^ n.

(** Division truncating toward zero. *)
Definition tdiv (a b : Z) : Z := Z.quot a b.

Section Steps.
Variable c : calibrationCoefficients.
Variable shiftAmount : Z.
Variables rawTemp rawPressure : Z.

(** Step 1. *)
Definition X1 : Z := sar (s32 (s32 (rawTemp - ac6 c) * ac5 c)) 15.
Definition tempDivisor : Z := s32 (X1 + md c).
Definition X2 : Z := s32 (tdiv (s32 (shl (mc c) 11)) tempDivisor).
Definition B5 : Z := s32 (X1 + X2).
(** Step 2. *)
Definition Temperature : Go.float32 :=
  Go.fdiv32 (Go.float32_of_int (sar (s32 (B5 + 8)) 4)) (Go.float32_of_int 10).
(** Step 3. *)
Definition B6 : Z := s32 (B5 - 4000).
(** Step 4. *)
Definition X1_4 : Z := sar (s32 (b2 c * sar (s32 (B6 * B6)) 12)) 11.
Definition X2_4 : Z := sar (s32 (ac2 c * B6)) 11.
Definition X3_4 : Z := s32 (X1_4 + X2_4).
(** Step 5. *)
Definition B3 : Z :=
  sar (s32 (s32 (shl (s32 (s32 (ac1 c * 4) + X3_4)) shiftAmount) + 2)) 2.
(** Step 6. *)
Definition X1_6 : Z := sar (s32 (ac3 c * B6)) 13.
Definition X2_6 : Z := sar (s32 (b1 c * sar (s32 (B6 * B6)) 12)) 16.
Definition X3_6 : Z := sar (s32 (s32 (X1_6 + X2_6) + 2)) 2.
(** Step 7. *)
Definition B4 : Z := sar (u32 (ac4 c * u32 (X3_6 + 32768))) 15.
(** Step 8. *)
Definition B7 : Z := u32 (u32 (rawPressure - B3) * sar 50000 shiftAmount).
Definition P : Z :=
  if B7 <? 0x80000000
  then s32 (tdiv (u32 (shl B7 1)) B4)
  else s32 (u32 (shl (tdiv B7 B4) 1)).
(** Step 9. *)
Definition X1_9 : Z := sar (s32 (s32 (sar P 8 * sar P 8) * 3038)) 16.
Definition X2_9 : Z := sar (s32 (-7357 * P)) 16.
(** Step 10. *)
Definition Pressure : Go.float32 :=
  Go.float32_of_int (s32 (P + sar (s32 (s32 (X1_9 + X2_9) + 3791)) 4)).
End Steps.

(** The calibration block: eleven big-endian 16-bit words. *)
Definition word (block : list byte) (i : nat) : Z :=
  256 * byte_to_Z (nth (2 * i) block x00) + byte_to_Z (nth (2 * i + 1) block x00).
Definition signed16 (w : Z) : Z := if w <? 32768 then w else w - 65536.

Definition decode (block : list byte) : calibrationCoefficients :=
  mkCal (signed16 (word block 0)) (signed16 (word block 1)) (signed16 (word block 2))
        (word block 3) (word block 4) (word block 5)
        (signed16 (word block 6)) (signed16 (word block 7))
        (signed16 (word block 8)) (signed16 (word block 9)) (signed16 (word block 10)).

(** The oversampling table: settle time in milliseconds by shift amount. *)
Definition settleTime (shiftAmount : Z) : Z :=
  nth (Z.to_nat shiftAmount) [5; 8; 14; 26] 0 * Millisecond.

Definition pressureCommand (shiftAmount : Z) : Z :=
  Z.lor bmp180CmdPressure (Z.shiftl shiftAmount 6).

Definition rawPressureValue (byte0 byte1 byte2 : byte) (shiftAmount : Z) : Z :=
  Z.shiftr (Z.lor (Z.lor (Z.shiftl (byte_to_Z byte0) 16) (Z.shiftl (byte_to_Z byte1) 8))
                  (byte_to_Z byte2))
           (8 - shiftAmount).

Definition rawTempValue (byte0 byte1 : byte) : Z :=
  signed16 (256 * byte_to_Z byte0 + byte_to_Z byte1).

End Documented.

(** ** Observing a run *)

(** The errors that reached the Error event, in order. *)
Definition published (tr : list event) : list error :=
  flat_map (fun ev => match ev with
                      | EvPublish e => [e]
                      | _ => []
                      end) tr.

(** The errors the bus calls returned, in order. *)
Definition busErrors (tr : list event) : list error :=
  flat_map (fun ev => match ev with
                      | EvStart _ (Some e) => [e]
                      | EvWrite _ _ (Some e) => [e]
                      | EvRead _ _ _ (Some e) => [e]
                      | _ => []
                      end) tr.

(** The polling-interval sleeps of a trace. *)
Definition intervalSleeps (i : Z) (tr : list event) : nat :=
  List.length (filter (fun ev => match ev with
                                 | EvSleep d => d =? i
                                 | _ => false
                                 end) tr).

Definition withCalibration {C} (cal : calibrationCoefficients) (s : state C) : state C :=
  mkState (setCalibration cal (dev s)) (trace s).

(** The calibration load on connection [c] fails with [e]: at the bus start,
    at the write of the register address, or at the read of the block. *)
Definition loadFails {C} {bus : I2c C} (c : C) (e : error) : Prop :=
  (exists c1, I2cStart c bmp180Address = (Some e, c1))
  \/ (exists c1 c2,
        I2cStart c bmp180Address = (None, c1)
        /\ I2cWrite c1 bmp180Address [xaa] = (Some e, c2))
  \/ (exists c1 c2 c3 r,
        I2cStart c bmp180Address = (None, c1)
        /\ I2cWrite c1 bmp180Address [xaa] = (None, c2)
        /\ I2cRead c2 bmp180Address 22 = ((r, Some e), c3)).

(** The device of the documented worked example, on any connection. *)
Definition refDriver {C} (c : C) : BMP180Driver C :=
  setCalibration refCal (NewBMP180Driver c BMP180UltraLowPower []).

(** A freshly constructed device on a scripted bus; Start has not run and
    no calibration has been loaded. *)
Definition uncalibrated (script : scriptedBus) : BMP180Driver scriptedBus :=
  NewBMP180Driver script BMP180UltraLowPower [].

(** A bus on which the next two calls fail. *)
Definition stuckBus : scriptedBus := [Nak "i2c write failed"%string; Nak "i2c write failed"%string].

(** ** Further observations *)

(** The error list of a call result: empty for [nil]. *)
Definition errs (o : option error) : list error :=
  match o with
  | Some e => [e]
  | None => []
  end.

(** The sleeps of a trace, in order. *)
Definition sleeps (tr : list event) : list Z :=
  flat_map (fun ev => match ev with
                      | EvSleep d => [d]
                      | _ => []
                      end) tr.

(** A bus call is addressed to the BMP180. *)
Definition toDevice (ev : event) : Prop :=
  match ev with
  | EvStart a _ => a = bmp180Address
  | EvWrite a _ _ => a = bmp180Address
  | EvRead a _ _ _ => a = bmp180Address
  | _ => True
  end.

(** The ranges of the Go types of the coefficients. *)
Definition isInt16 (z : Z) : Prop := -32768 <= z <= 32767.
Definition isUint16 (z : Z) : Prop := 0 <= z <= 65535.

Definition wellTyped (c : calibrationCoefficients) : Prop :=
  isInt16 (ac1 c) /\ isInt16 (ac2 c) /\ isInt16 (ac3 c)
  /\ isUint16 (ac4 c) /\ isUint16 (ac5 c) /\ isUint16 (ac6 c)
  /\ isInt16 (b1 c) /\ isInt16 (b2 c)
  /\ isInt16 (mb c) /\ isInt16 (mc c) /\ isInt16 (md c).

(** The block a device holding [c] hands out: the eleven words, big-endian,
    in register order. *)
Definition encodeCalibration (c : calibrationCoefficients) : list byte :=
  flat_map be16 [ac1 c; ac2 c; ac3 c; ac4 c; ac5 c; ac6 c; b1 c; b2 c; mb c; mc c; md c].

(** The value of the [i]-th coefficient after decoding [block] over [old]:
    the word if the block holds all of it, the old value otherwise. *)
Definition fieldAfter (signed : bool) (old : Z) (block : list byte) (i : nat) : Z :=
  if (2 * (i + 1) <=? List.length block)%nat
  then (if signed then Documented.signed16 (Documented.word block i)
        else Documented.word block i)
  else old.

(** The fields of the device that neither acquisition nor polling writes. *)
Definition sameConfig {C} (d d' : BMP180Driver C) : Prop :=
  name d' = name d /\ interval d' = interval d /\ mode d' = mode d
  /\ calibration d' = calibration d.

Definition sameReadings {C} (d d' : BMP180Driver C) : Prop :=
  Temperature d' = Temperature d /\ Pressure d' = Pressure d.

(** ** Arithmetic facts *)

Lemma uint32_mod (z : Z) : Go.uint32 z = z mod 2 ^ 32.
Proof. unfold Go.uint32. apply Z.land_ones. lia. Qed.

Lemma uint16_mod (z : Z) : Go.uint16 z = z mod 2 ^ 16.
Proof. unfold Go.uint16. apply Z.land_ones. lia. Qed.

Lemma testbit_top (w u : Z) :
  0 < w -> 0 <= u < 2 ^ w -> Z.testbit u (w - 1) = (2 ^ (w - 1) <=? u).
Proof.
  intros Hw Hu.
  rewrite Z.testbit_eqb by lia.
  assert (Hp : 2 ^ w = 2 * 2 ^ (w - 1)).
  { replace w with (Z.succ (w - 1)) at 1 by lia. apply Z.pow_succ_r. lia. }
  assert (Hpos : 0 < 2 ^ (w - 1)) by (apply Z.pow_pos_nonneg; lia).
  destruct (Z.leb_spec (2 ^ (w - 1)) u) as [Hle | Hlt].
  - assert (Hq : u / 2 ^ (w - 1) = 1).
    { symmetry. apply (Z.div_unique_pos u (2 ^ (w - 1)) 1 (u - 2 ^ (w - 1))); lia. }
    rewrite Hq. reflexivity.
  - rewrite Z.div_small by lia. reflexivity.
Qed.

Lemma int32_s32 (z : Z) : Go.int32 z = Documented.s32 z.
Proof.
  unfold Go.int32, Documented.s32. cbv zeta. rewrite uint32_mod.
  assert (Hr : 0 <= z mod 2 ^ 32 < 2 ^ 32) by (apply Z.mod_pos_bound; lia).
  change 31 with (32 - 1) at 1.
  rewrite (testbit_top 32) by lia.
  change (2 ^ (32 - 1)) with (2 ^ 31).
  pose proof (Z.div_mod z (2 ^ 32)) as Hdm.
  destruct (Z.leb_spec (2 ^ 31) (z mod 2 ^ 32)) as [Hle | Hlt].
  - assert (E : (z + 2 ^ 31) mod 2 ^ 32 = z mod 2 ^ 32 - 2 ^ 31).
    { symmetry. apply (Z.mod_unique_pos _ _ (z / 2 ^ 32 + 1)); lia. }
    rewrite E. lia.
  - assert (E : (z + 2 ^ 31) mod 2 ^ 32 = z mod 2 ^ 32 + 2 ^ 31).
    { symmetry. apply (Z.mod_unique_pos _ _ (z / 2 ^ 32)); lia. }
    rewrite E. lia.
Qed.

Lemma s32_mod (a : Z) : Documented.s32 a mod 2 ^ 32 = a mod 2 ^ 32.
Proof.
  unfold Documented.s32.
  rewrite Zminus_mod_idemp_l. f_equal. lia.
Qed.

Lemma s32_cong (a b : Z) :
  a mod 2 ^ 32 = b mod 2 ^ 32 -> Documented.s32 a = Documented.s32 b.
Proof.
  intros H. unfold Documented.s32.
  rewrite <- (Zplus_mod_idemp_l a), H, Zplus_mod_idemp_l. reflexivity.
Qed.

Lemma s32_add_l (a b : Z) : Documented.s32 (Documented.s32 a + b) = Documented.s32 (a + b).
Proof. apply s32_cong. rewrite <- Zplus_mod_idemp_l, s32_mod, Zplus_mod_idemp_l. reflexivity. Qed.

Lemma s32_add_r (a b : Z) : Documented.s32 (a + Documented.s32 b) = Documented.s32 (a + b).
Proof. apply s32_cong. rewrite <- Zplus_mod_idemp_r, s32_mod, Zplus_mod_idemp_r. reflexivity. Qed.

Lemma s32_sub_l (a b : Z) : Documented.s32 (Documented.s32 a - b) = Documented.s32 (a - b).
Proof. apply s32_cong. rewrite <- Zminus_mod_idemp_l, s32_mod, Zminus_mod_idemp_l. reflexivity. Qed.

Lemma s32_sub_r (a b : Z) : Documented.s32 (a - Documented.s32 b) = Documented.s32 (a - b).
Proof. apply s32_cong. rewrite <- Zminus_mod_idemp_r, s32_mod, Zminus_mod_idemp_r. reflexivity. Qed.

Lemma s32_mul_l (a b : Z) : Documented.s32 (Documented.s32 a * b) = Documented.s32 (a * b).
Proof. apply s32_cong. rewrite <- Zmult_mod_idemp_l, s32_mod, Zmult_mod_idemp_l. reflexivity. Qed.

Lemma s32_mul_r (a b : Z) : Documented.s32 (a * Documented.s32 b) = Documented.s32 (a * b).
Proof. apply s32_cong. rewrite <- Zmult_mod_idemp_r, s32_mod, Zmult_mod_idemp_r. reflexivity. Qed.

Lemma u32_s32 (a : Z) : Documented.u32 (Documented.s32 a) = Documented.u32 a.
Proof. apply s32_mod. Qed.

Lemma u32_mul_l (a b : Z) : Documented.u32 (Documented.u32 a * b) = Documented.u32 (a * b).
Proof. unfold Documented.u32. apply Zmult_mod_idemp_l. Qed.

Lemma u32_mul_r (a b : Z) : Documented.u32 (a * Documented.u32 b) = Documented.u32 (a * b).
Proof. unfold Documented.u32. apply Zmult_mod_idemp_r. Qed.

Lemma u32_add_l (a b : Z) : Documented.u32 (Documented.s32 a + b) = Documented.u32 (a + b).
Proof.
  unfold Documented.u32.
  rewrite <- Zplus_mod_idemp_l, s32_mod, Zplus_mod_idemp_l. reflexivity.
Qed.

Lemma u32_sub_l (a b : Z) : Documented.u32 (Documented.s32 a - b) = Documented.u32 (a - b).
Proof.
  unfold Documented.u32.
  rewrite <- Zminus_mod_idemp_l, s32_mod, Zminus_mod_idemp_l. reflexivity.
Qed.

Lemma u32_sub_r (a b : Z) : Documented.u32 (a - Documented.s32 b) = Documented.u32 (a - b).
Proof.
  unfold Documented.u32.
  rewrite <- Zminus_mod_idemp_r, s32_mod, Zminus_mod_idemp_r. reflexivity.
Qed.

Lemma u32_idem (a : Z) : Documented.u32 (Documented.u32 a) = Documented.u32 a.
Proof. unfold Documented.u32. apply Zmod_mod. Qed.

Lemma s32_idem (a : Z) : Documented.s32 (Documented.s32 a) = Documented.s32 a.
Proof. apply s32_cong, s32_mod. Qed.

Lemma s32_shl (a n : Z) :
  Documented.s32 (Documented.shl (Documented.s32 a) n) = Documented.s32 (Documented.shl a n).
Proof. unfold Documented.shl. apply s32_mul_l. Qed.

Create Rewrite HintDb wrap32.
#[local] Hint Rewrite s32_add_l s32_add_r s32_sub_l s32_sub_r s32_mul_l s32_mul_r
  s32_shl u32_s32 u32_mul_l u32_mul_r u32_idem s32_idem : wrap32.

(** The Go operations in the documented vocabulary. *)
Lemma add32_eq (a b : Z) : Go.add32 a b = Documented.s32 (a + b).
Proof. apply int32_s32. Qed.
Lemma sub32_eq (a b : Z) : Go.sub32 a b = Documented.s32 (a - b).
Proof. apply int32_s32. Qed.
Lemma mul32_eq (a b : Z) : Go.mul32 a b = Documented.s32 (a * b).
Proof. apply int32_s32. Qed.
Lemma shl32_eq (a n : Z) : 0 <= n -> Go.shl32 a n = Documented.s32 (Documented.shl a n).
Proof. intros Hn. unfold Go.shl32. rewrite int32_s32, Z.shiftl_mul_pow2 by lia. reflexivity. Qed.
Lemma shr32_eq (a n : Z) : 0 <= n -> Go.shr32 a n = Documented.sar a n.
Proof. intros Hn. unfold Go.shr32. apply Z.shiftr_div_pow2. lia. Qed.
Lemma umul32_eq (a b : Z) : Go.umul32 a b = Documented.u32 (a * b).
Proof. apply uint32_mod. Qed.
Lemma ushl32_eq (a n : Z) : 0 <= n -> Go.ushl32 a n = Documented.u32 (Documented.shl a n).
Proof. intros Hn. unfold Go.ushl32. rewrite uint32_mod, Z.shiftl_mul_pow2 by lia. reflexivity. Qed.
Lemma ushr32_eq (a n : Z) : 0 <= n -> Go.ushr32 a n = Documented.sar a n.
Proof. intros Hn. unfold Go.ushr32. apply Z.shiftr_div_pow2. lia. Qed.
Lemma uint32_eq (a : Z) : Go.uint32 a = Documented.u32 a.
Proof. apply uint32_mod. Qed.

Lemma quo32_some (a b : Z) :
  b <> 0 -> Go.quo32 a b = Some (Documented.s32 (Documented.tdiv a b)).
Proof.
  intros Hb. unfold Go.quo32.
  destruct (Z.eqb_spec b 0) as [E | _]; [contradiction |].
  rewrite int32_s32. reflexivity.
Qed.

Lemma uquo32_some (a b : Z) : b <> 0 -> Go.uquo32 a b = Some (Documented.tdiv a b).
Proof.
  intros Hb. unfold Go.uquo32.
  destruct (Z.eqb_spec b 0) as [E | _]; [contradiction | reflexivity].
Qed.

(** Rewrites the Go operations of a goal into the documented vocabulary and
    drops the wraps that a surrounding wrap absorbs. *)
Ltac documented :=
  rewrite ?add32_eq, ?sub32_eq, ?mul32_eq, ?umul32_eq, ?uint32_eq;
  rewrite ?shl32_eq, ?shr32_eq, ?ushl32_eq, ?ushr32_eq by lia;
  rewrite ?int32_s32, ?uint32_eq;
  repeat rewrite_strat (bottomup (hints wrap32)).

(* The rewriting below is syntactic; nothing is to be unfolded by it. *)
Opaque Documented.s32 Documented.u32 Documented.sar Documented.shl Documented.tdiv Z.mul Z.add Z.sub.

Section CompensationFacts.
Context {C : Type}.
Variable d : BMP180Driver C.
Variables rawT rawP : Z.
Hypothesis mode_nonneg : 0 <= mode d.

Let c := calibration d.
Let m := mode d.

Lemma calculateB5_documented :
  Documented.tempDivisor c rawT <> 0 ->
  calculateB5 d rawT = Some (Documented.B5 c rawT).
Proof.
  intros Hdiv. unfold calculateB5. cbv zeta. fold c.
  unfold Documented.B5, Documented.X2, Documented.tempDivisor, Documented.X1 in *.
  repeat rewrite_strat (bottomup (hints wrap32)) in Hdiv.
  rewrite quo32_some.
  - f_equal. documented. reflexivity.
  - documented. exact Hdiv.
Qed.

Lemma calculateTemp_documented :
  Documented.tempDivisor c rawT <> 0 ->
  calculateTemp d rawT = Some (Documented.Temperature c rawT).
Proof.
  intros Hdiv. unfold calculateTemp.
  rewrite calculateB5_documented by assumption.
  unfold Documented.Temperature. documented. reflexivity.
Qed.

Lemma calculatePressure_documented :
  Documented.tempDivisor c rawT <> 0 ->
  Documented.B4 c rawT <> 0 ->
  calculatePressure d rawT rawP = Some (Documented.Pressure c m rawT rawP).
Proof.
  intros Hdiv Hb4. unfold calculatePressure.
  rewrite calculateB5_documented by assumption. fold c. fold m.
  assert (Hm : 0 <= m) by exact mode_nonneg.
  assert (Eb6 : Go.sub32 (Documented.B5 c rawT) 4000 = Documented.B6 c rawT).
  { unfold Documented.B6. documented. reflexivity. }
  rewrite !Eb6.
  match goal with
  | |- context [Go.sub32 rawP ?b3] =>
      assert (Eb3 : b3 = Documented.B3 c m rawT)
  end.
  { unfold Documented.B3, Documented.X3_4, Documented.X1_4, Documented.X2_4.
    generalize (Documented.B6 c rawT). intros b6.
    documented. reflexivity. }
  rewrite !Eb3.
  match goal with
  | |- context [Go.uquo32 _ ?b4] =>
      assert (Eb4 : b4 = Documented.B4 c rawT)
  end.
  { unfold Documented.B4, Documented.X3_6, Documented.X1_6, Documented.X2_6.
    generalize (Documented.B6 c rawT). intros b6.
    documented. reflexivity. }
  rewrite !Eb4.
  match goal with
  | |- context [?b7 <? 2147483648] =>
      assert (Eb7 : b7 = Documented.B7 c m rawT rawP)
  end.
  { unfold Documented.B7.  generalize (Documented.B3 c m rawT). intros b3.
    documented. reflexivity. }
  rewrite !Eb7.
  rewrite !uquo32_some by assumption.
  unfold Documented.Pressure, Documented.X1_9, Documented.X2_9, Documented.P.
  generalize (Documented.B7 c m rawT rawP) (Documented.B4 c rawT). intros b7 b4.
  destruct (b7 <? 2147483648);
    cbv beta iota; f_equal; documented; reflexivity.
Qed.
End CompensationFacts.

Transparent Documented.s32 Documented.u32 Documented.sar Documented.shl Documented.tdiv Z.mul Z.add Z.sub.

(** ** Bytes and words *)

Lemma byte_to_Z_range (b : byte) : 0 <= byte_to_Z b < 256.
Proof.
  unfold byte_to_Z. pose proof (Byte.to_N_bounded b) as H. lia.
Qed.

Lemma land_low_shiftl (lo hi k : Z) :
  0 <= k -> 0 <= lo < 2 ^ k -> Z.land lo (Z.shiftl hi k) = 0.
Proof.
  intros Hk Hlo. apply Z.bits_inj'. intros n Hn.
  rewrite Z.land_spec, Z.bits_0.
  destruct (Z.ltb_spec n k) as [Hlt | Hge].
  - rewrite (Z.shiftl_spec_low hi k n) by lia. apply andb_false_r.
  - rewrite <- (Z.mod_small lo (2 ^ k)) by lia.
    rewrite Z.mod_pow2_bits_high by lia. reflexivity.
Qed.

Lemma lor_low_shiftl (lo hi k : Z) :
  0 <= k -> 0 <= lo < 2 ^ k -> Z.lor lo (Z.shiftl hi k) = hi * 2 ^ k + lo.
Proof.
  intros Hk Hlo.
  rewrite <- Z.lxor_lor by (apply land_low_shiftl; assumption).
  rewrite <- Z.add_nocarry_lxor by (apply land_low_shiftl; assumption).
  rewrite Z.shiftl_mul_pow2 by lia. lia.
Qed.

Lemma int16_signed16 (u : Z) : 0 <= u < 65536 -> Go.int16 u = Documented.signed16 u.
Proof.
  intros Hu. unfold Go.int16, Documented.signed16. cbv zeta.
  rewrite uint16_mod, Z.mod_small by lia.
  change 15 with (16 - 1).
  rewrite (testbit_top 16) by lia.
  change (2 ^ (16 - 1)) with 32768. change (2 ^ 16) with 65536.
  destruct (Z.leb_spec 32768 u), (Z.ltb_spec u 32768); lia.
Qed.

Lemma int32_small (z : Z) : - 2 ^ 31 <= z < 2 ^ 31 -> Go.int32 z = z.
Proof.
  intros Hz. rewrite int32_s32. unfold Documented.s32.
  rewrite Z.mod_small by lia. lia.
Qed.

Lemma readUint16_cons (hi lo : byte) (rest : list byte) :
  readUint16 (hi :: lo :: rest) = (Some (256 * byte_to_Z hi + byte_to_Z lo), rest).
Proof.
  unfold readUint16.
  rewrite (lor_low_shiftl _ _ 8) by (pose proof (byte_to_Z_range lo); lia).
  do 2 f_equal. lia.
Qed.

Lemma readInt16_cons (hi lo : byte) (rest : list byte) :
  readInt16 (hi :: lo :: rest)
  = (Some (Documented.signed16 (256 * byte_to_Z hi + byte_to_Z lo)), rest).
Proof.
  unfold readInt16. rewrite readUint16_cons.
  rewrite int16_signed16; [reflexivity |].
  pose proof (byte_to_Z_range hi). pose proof (byte_to_Z_range lo). lia.
Qed.

Lemma readCoefficients_decode (c : calibrationCoefficients) (block : list byte) :
  List.length block = 22%nat -> readCoefficients c block = Documented.decode block.
Proof.
  intros Hlen.
  do 22 (destruct block as [| ? block]; [discriminate Hlen |]).
  destruct block; [| discriminate Hlen].
  unfold readCoefficients.
  repeat (rewrite ?readInt16_cons, ?readUint16_cons; cbv beta iota).
  reflexivity.
Qed.

(** ** Running the bus calls *)

Section BusFacts.
Context {C : Type} {bus : I2c C}.

Lemma i2cStart_run (s : state C) (address : Z) (err : option error) (c : C) :
  I2cStart (connection (dev s)) address = (err, c) ->
  i2cStart address s
  = Some (err, mkState (setConnection c (dev s)) (trace s ++ [EvStart address err])).
Proof. intros H. unfold i2cStart. rewrite H. reflexivity. Qed.

Lemma i2cWrite_run (s : state C) (address : Z) (data : list byte)
      (err : option error) (c : C) :
  I2cWrite (connection (dev s)) address data = (err, c) ->
  i2cWrite address data s
  = Some (err, mkState (setConnection c (dev s)) (trace s ++ [EvWrite address data err])).
Proof. intros H. unfold i2cWrite. rewrite H. reflexivity. Qed.

Lemma i2cRead_run (s : state C) (address n : Z) (r : list byte)
      (err : option error) (c : C) :
  I2cRead (connection (dev s)) address n = ((r, err), c) ->
  i2cRead address n s
  = Some ((r, err),
          mkState (setConnection c (dev s)) (trace s ++ [EvRead address n r err])).
Proof. intros H. unfold i2cRead. rewrite H. reflexivity. Qed.

(** [read] when both of its bus calls succeed. *)
Lemma read_ok (s : state C) (address : byte) (n : Z) (r : list byte) (c1 c2 : C) :
  I2cWrite (connection (dev s)) bmp180Address [address] = (None, c1) ->
  I2cRead c1 bmp180Address n = ((r, None), c2) ->
  read address n s
  = Some ((r, None),
          mkState (setConnection c2 (dev s))
                  (trace s ++ [EvWrite bmp180Address [address] None;
                               EvRead bmp180Address n r None])).
Proof.
  intros Hw Hr. unfold read, bind.
  rewrite (i2cWrite_run _ _ _ _ _ Hw).
  rewrite (i2cRead_run _ _ _ r None c2) by exact Hr.
  unfold ret. cbn [dev trace]. rewrite <- app_assoc. reflexivity.
Qed.

(** [read] when one of its bus calls fails. *)
Lemma read_write_fails (s : state C) (address : byte) (n : Z) (e : error) (c1 : C) :
  I2cWrite (connection (dev s)) bmp180Address [address] = (Some e, c1) ->
  read address n s
  = Some (([], Some e),
          mkState (setConnection c1 (dev s))
                  (trace s ++ [EvWrite bmp180Address [address] (Some e)])).
Proof.
  intros Hw. unfold read, bind.
  rewrite (i2cWrite_run _ _ _ _ _ Hw). reflexivity.
Qed.

Lemma read_read_fails (s : state C) (address : byte) (n : Z) (r : list byte)
      (e : error) (c1 c2 : C) :
  I2cWrite (connection (dev s)) bmp180Address [address] = (None, c1) ->
  I2cRead c1 bmp180Address n = ((r, Some e), c2) ->
  read address n s
  = Some (([], Some e),
          mkState (setConnection c2 (dev s))
                  (trace s ++ [EvWrite bmp180Address [address] None;
                               EvRead bmp180Address n r (Some e)])).
Proof.
  intros Hw Hr. unfold read, bind.
  rewrite (i2cWrite_run _ _ _ _ _ Hw).
  rewrite (i2cRead_run _ _ _ r (Some e) c2) by exact Hr.
  unfold ret. cbn [dev trace]. rewrite <- app_assoc. reflexivity.
Qed.

End BusFacts.

(** ** Raw acquisition *)

(** C9. rawTemp writes the temperature-start command 0x2E to the control
    register 0xF4, sleeps exactly 5 ms whatever the device's oversampling
    mode is, then reads 2 bytes from the result register 0xF6 and returns
    them as a big-endian signed 16-bit value. *)
Theorem rawTemp_sequence {C : Type} {bus : I2c C} (s : state C) (c1 c2 c3 : C)
        (byte0 byte1 : byte) :
  I2cWrite (connection (dev s)) 0x77 [xf4; x2e] = (None, c1) ->
  I2cWrite c1 0x77 [xf6] = (None, c2) ->
  I2cRead c2 0x77 2 = (([byte0; byte1], None), c3) ->
  rawTemp s
  = Some ((Documented.rawTempValue byte0 byte1, None),
          mkState (setConnection c3 (dev s))
                  (trace s ++ [EvWrite 0x77 [xf4; x2e] None;
                               EvSleep (5 * Millisecond);
                               EvWrite 0x77 [xf6] None;
                               EvRead 0x77 2 [byte0; byte1] None])).
Proof.
  intros Hcmd Hreg Hread. unfold rawTemp, bind.
  change (byte_of_Z bmp180RegisterCtl) with xf4.
  change (byte_of_Z bmp180CmdTemp) with x2e.
  change (byte_of_Z bmp180RegisterTempMSB) with xf6.
  rewrite (i2cWrite_run s _ _ None c1) by exact Hcmd.
  unfold sleep, emit. cbn [dev trace].
  erewrite read_ok; [| exact Hreg | exact Hread].
  rewrite readInt16_cons. unfold ret, orKeep, Documented.rawTempValue. cbn [fst dev trace].
  rewrite <- !app_assoc. reflexivity.
Qed.

Lemma pressure_command_byte (m : BMP180OversamplingMode) :
  In m oversamplingModes ->
  Go.add8 bmp180CmdPressure (Go.uint8 (Go.ushl m 6)) = Documented.pressureCommand m.
Proof.
  intros Hm. repeat (destruct Hm as [<- | Hm]; [reflexivity |]). destruct Hm.
Qed.

Lemma pressure_shift_count (m : BMP180OversamplingMode) :
  In m oversamplingModes -> Go.usub 8 m = 8 - m.
Proof.
  intros Hm. repeat (destruct Hm as [<- | Hm]; [reflexivity |]). destruct Hm.
Qed.

Lemma pressure_bytes_combine (byte0 byte1 byte2 : byte) :
  Go.add32 (Go.add32 (Go.shl32 (Go.int32 (byte_to_Z byte0)) 16)
                     (Go.shl32 (Go.int32 (byte_to_Z byte1)) 8))
           (Go.int32 (byte_to_Z byte2))
  = Z.lor (Z.lor (Z.shiftl (byte_to_Z byte0) 16) (Z.shiftl (byte_to_Z byte1) 8))
          (byte_to_Z byte2).
Proof.
  pose proof (byte_to_Z_range byte0) as H0.
  pose proof (byte_to_Z_range byte1) as H1.
  pose proof (byte_to_Z_range byte2) as H2.
  rewrite <- Z.lor_assoc.
  rewrite (Z.lor_comm (Z.shiftl (byte_to_Z byte1) 8)).
  rewrite (lor_low_shiftl (byte_to_Z byte2) _ 8) by lia.
  rewrite Z.lor_comm.
  rewrite (lor_low_shiftl _ (byte_to_Z byte0) 16) by lia.
  unfold Go.add32, Go.shl32.
  rewrite !Z.shiftl_mul_pow2 by lia.
  rewrite !(int32_small (byte_to_Z _)) by lia.
  rewrite !(int32_small (byte_to_Z _ * _)) by lia.
  rewrite (int32_small (_ * _ + _ * _)) by lia.
  rewrite int32_small by lia.
  lia.
Qed.

Section AcquisitionFacts.
Context {C : Type} {bus : I2c C}.

Lemma settle_table (s : state C) (m : BMP180OversamplingMode) :
  In m oversamplingModes ->
  settle m s = Some (tt, mkState (dev s) (trace s ++ [EvSleep (Documented.settleTime m)])).
Proof.
  intros Hm. repeat (destruct Hm as [<- | Hm]; [reflexivity |]). destruct Hm.
Qed.

End AcquisitionFacts.

(** C4. For each of the four oversampling modes, rawPressure writes to the
    control register the command 0x34 or-ed with the shift amount moved into
    bits 6-7, sleeps the settle time the table gives for the mode (5, 8, 14,
    26 ms), reads 3 bytes, and returns (byte0<<16 | byte1<<8 | byte2)
    shifted right by 8 minus the shift amount. *)
Theorem rawPressure_sequence {C : Type} {bus : I2c C} (s : state C) (c1 c2 c3 : C)
        (byte0 byte1 byte2 : byte) (m : BMP180OversamplingMode) :
  mode (dev s) = m ->
  In m oversamplingModes ->
  I2cWrite (connection (dev s)) 0x77 [xf4; byte_of_Z (Documented.pressureCommand m)]
  = (None, c1) ->
  I2cWrite c1 0x77 [xf6] = (None, c2) ->
  I2cRead c2 0x77 3 = (([byte0; byte1; byte2], None), c3) ->
  rawPressure s
  = Some ((Documented.rawPressureValue byte0 byte1 byte2 m, None),
          mkState (setConnection c3 (dev s))
                  (trace s ++ [EvWrite 0x77 [xf4; byte_of_Z (Documented.pressureCommand m)] None;
                               EvSleep (Documented.settleTime m);
                               EvWrite 0x77 [xf6] None;
                               EvRead 0x77 3 [byte0; byte1; byte2] None])).
Proof.
  intros Em Hm Hcmd Hreg Hread. unfold rawPressure, bind, getDev.
  change (byte_of_Z bmp180RegisterCtl) with xf4.
  change (byte_of_Z bmp180RegisterPressureMSB) with xf6.
  rewrite Em. rewrite (pressure_command_byte m Hm).
  rewrite (i2cWrite_run s _ _ None c1) by exact Hcmd.
  cbn [dev trace mode setConnection]. rewrite Em.
  rewrite (settle_table _ m Hm). cbn [dev trace].
  erewrite read_ok; [| exact Hreg | exact Hread].
  unfold index, orPanic, ret. cbn [nth_error option_map dev trace mode setConnection].
  rewrite Em. rewrite pressure_bytes_combine, (pressure_shift_count m Hm).
  unfold Documented.rawPressureValue, Go.shr32.
  rewrite <- !app_assoc. reflexivity.
Qed.

(** ** Calibration load *)

(** C3. When the calibration read returns a 22-byte block, initialization
    decodes it as eleven consecutive big-endian 16-bit words in the order
    ac1, ac2, ac3, ac4, ac5, ac6, b1, b2, mb, mc, md, the words of ac4-ac6
    taken unsigned and the others as two's-complement signed; the block
    that encodes the reference coefficients decodes to exactly them. *)
Theorem initialization_decodes {C : Type} {bus : I2c C} (s : state C) (c1 c2 c3 : C)
        (block : list byte) :
  List.length block = 22%nat ->
  I2cStart (connection (dev s)) 0x77 = (None, c1) ->
  I2cWrite c1 0x77 [xaa] = (None, c2) ->
  I2cRead c2 0x77 22 = ((block, None), c3) ->
  initialization s
  = Some (None,
          mkState (setCalibration (Documented.decode block) (setConnection c3 (dev s)))
                  (trace s ++ [EvStart 0x77 None;
                               EvWrite 0x77 [xaa] None;
                               EvRead 0x77 22 block None]))
  /\ (block = refBlock ->
      exists s', initialization s = Some (None, s') /\ calibration (dev s') = refCal).
Proof.
  intros Hlen Hstart Hreg Hread.
  assert (Hrun : initialization s
    = Some (None,
            mkState (setCalibration (Documented.decode block) (setConnection c3 (dev s)))
                    (trace s ++ [EvStart 0x77 None;
                                 EvWrite 0x77 [xaa] None;
                                 EvRead 0x77 22 block None]))).
  { unfold initialization, bind.
    change (byte_of_Z bmp180RegisterAC1MSB) with xaa.
    rewrite (i2cStart_run s _ None c1) by exact Hstart.
    erewrite read_ok; [| exact Hreg | exact Hread].
    unfold setDev, ret. cbn [dev trace calibration setConnection].
    rewrite (readCoefficients_decode _ _ Hlen).
    rewrite <- !app_assoc. reflexivity. }
  split; [exact Hrun |].
  intros ->. eexists. split; [exact Hrun |]. reflexivity.
Qed.

(** C8. If the calibration load fails during Start, Start returns that
    error to its caller, the polling goroutine is not launched, so that
    however long one waits no reading changes and nothing more happens, and
    no calibration coefficient has been set. *)
Theorem Start_load_failure {C : Type} {bus : I2c C} (s : state C) (e : error) :
  loadFails (connection (dev s)) e ->
  exists s',
    Start s = Some ((Some e, false), s')
    /\ (forall n, run n s = Some (Some e, s'))
    /\ calibration (dev s') = calibration (dev s)
    /\ Temperature (dev s') = Temperature (dev s)
    /\ Pressure (dev s') = Pressure (dev s)
    /\ published (trace s') = published (trace s).
Proof.
  intros Hfail.
  assert (Hinit : exists c evs,
            initialization s
            = Some (Some e, mkState (setConnection c (dev s)) (trace s ++ evs))
            /\ published evs = []).
  { unfold initialization, bind.
    change (byte_of_Z bmp180RegisterAC1MSB) with xaa.
    destruct Hfail as [[c1 H1] | [(c1 & c2 & H1 & H2) | (c1 & c2 & c3 & r & H1 & H2 & H3)]].
    - rewrite (i2cStart_run s _ _ c1 H1). do 2 eexists. split; reflexivity.
    - rewrite (i2cStart_run s _ _ c1 H1).
      erewrite read_write_fails by exact H2.
      cbn [dev trace]. rewrite <- app_assoc.
      do 2 eexists. split; reflexivity.
    - rewrite (i2cStart_run s _ _ c1 H1).
      erewrite read_read_fails; [| exact H2 | exact H3].
      cbn [dev trace]. rewrite <- app_assoc.
      do 2 eexists. split; reflexivity. }
  destruct Hinit as (c & evs & Hinit & Hpub).
  exists (mkState (setConnection c (dev s)) (trace s ++ evs)).
  assert (HStart : Start s
            = Some ((Some e, false), mkState (setConnection c (dev s)) (trace s ++ evs))).
  { unfold Start, bind. rewrite Hinit. reflexivity. }
  split; [exact HStart |].
  split.
  { intros n. unfold run, bind. rewrite HStart. reflexivity. }
  repeat split.
  cbn [trace]. unfold published in *. rewrite flat_map_app, Hpub. apply app_nil_r.
Qed.

(** ** What an acquisition leaves untouched *)

Ltac run_cases H :=
  repeat (cbn [dev trace connection mode calibration setConnection fst snd] in H;
          match type of H with
          | context [match ?x with _ => _ end] =>
              lazymatch x with
              | context [match _ with _ => _ end] => fail
              | _ => destruct x eqn:?
              end
          end);
  try discriminate H;
  try (injection H as <- <-).

Ltac frame_done :=
  do 2 eexists; split;
  [ rewrite <- ?app_assoc; cbn [dev trace connection setConnection]; reflexivity
  | split; [ reflexivity | intros e' He'; cbn in He' |- *;
                            try discriminate He'; injection He' as <-; tauto ] ].

Section FrameFacts.
Context {C : Type} {bus : I2c C}.

Lemma rawTemp_inv (s s' : state C) (r : Z * option error) :
  rawTemp s = Some (r, s') ->
  exists c evs,
    s' = mkState (setConnection c (dev s)) (trace s ++ evs)
    /\ published evs = []
    /\ (forall e, snd r = Some e -> In e (busErrors evs)).
Proof.
  unfold rawTemp, read, bind, i2cWrite, i2cRead, sleep, emit, ret.
  intros H. run_cases H; frame_done.
Qed.

Lemma rawPressure_inv (s s' : state C) (r : Z * option error) :
  rawPressure s = Some (r, s') ->
  exists c evs,
    s' = mkState (setConnection c (dev s)) (trace s ++ evs)
    /\ published evs = []
    /\ (forall e, snd r = Some e -> In e (busErrors evs)).
Proof.
  unfold rawPressure, settle, read, index, orPanic, bind, getDev,
    i2cWrite, i2cRead, sleep, emit, ret.
  intros H. run_cases H; frame_done.
Qed.

End FrameFacts.

(** ** The polling cycle *)

Section CycleFacts.
Context {C : Type} {bus : I2c C}.

(** A failed temperature acquisition ends the pass right after the error
    is published. *)
Lemma cycle_rawTemp_failure (s s1 : state C) (v : Z) (e : error) :
  rawTemp s = Some ((v, Some e), s1) ->
  cycle s = Some (tt, mkState (dev s1) (trace s1 ++ [EvPublish e])).
Proof. intros H. unfold cycle, bind. rewrite H. reflexivity. Qed.

(** A pass in which both acquisitions succeed. *)
Lemma cycle_success (s s1 s2 : state C) (rawT rawP : Z) (t p : Go.float32) :
  rawTemp s = Some ((rawT, None), s1) ->
  calculateTemp (dev s1) rawT = Some t ->
  rawPressure (mkState (setTemperature t (dev s1)) (trace s1)) = Some ((rawP, None), s2) ->
  calculatePressure (dev s2) rawT rawP = Some p ->
  cycle s = Some (tt, mkState (setPressure p (dev s2))
                              (trace s2 ++ [EvSleep (interval (dev s2))])).
Proof.
  intros Ht Hct Hp Hcp. unfold cycle, bind, getDev.
  rewrite Ht. rewrite Hct. unfold orPanic, setDev. cbn [dev trace].
  rewrite Hp. rewrite Hcp. reflexivity.
Qed.

End CycleFacts.

(** C5. In a pass of the polling loop in which the temperature acquisition
    succeeds and the pressure acquisition then fails, Temperature is the
    value computed from this pass's raw temperature, Pressure keeps the
    value it had before the pass, and exactly one error, that of the failed
    acquisition, is published. *)
Theorem cycle_pressure_failure {C : Type} {bus : I2c C} (s s1 s2 : state C)
        (rawT rawP : Z) (t : Go.float32) (e : error) :
  rawTemp s = Some ((rawT, None), s1) ->
  calculateTemp (dev s) rawT = Some t ->
  rawPressure (mkState (setTemperature t (dev s1)) (trace s1)) = Some ((rawP, Some e), s2) ->
  exists s',
    cycle s = Some (tt, s')
    /\ Temperature (dev s') = t
    /\ Pressure (dev s') = Pressure (dev s)
    /\ published (trace s') = published (trace s) ++ [e]
    /\ trace s' = trace s2 ++ [EvPublish e].
Proof.
  intros Ht Hcalc Hp.
  destruct (rawTemp_inv _ _ _ Ht) as (c1 & evs1 & E1 & Hpub1 & _).
  destruct (rawPressure_inv _ _ _ Hp) as (c2 & evs2 & E2 & Hpub2 & _).
  exists (mkState (dev s2) (trace s2 ++ [EvPublish e])).
  split.
  { unfold cycle, bind, getDev. rewrite Ht.
    replace (calculateTemp (dev s1) rawT) with (Some t)
      by (rewrite <- Hcalc, E1; reflexivity).
    unfold orPanic, setDev. cbn [dev trace]. rewrite Hp. reflexivity. }
  rewrite E2, E1. cbn [dev trace Temperature Pressure setConnection setTemperature].
  repeat split.
  unfold published in *.
  rewrite !flat_map_app, Hpub1, Hpub2. cbn [flat_map app]. rewrite !app_nil_r. reflexivity.
Qed.

(** C6. The loop is meant to pace its attempts by the polling interval, but
    after a failed acquisition the pass ends at [continue], before the
    sleep: on a bus whose writes fail, two passes publish two errors with
    not one sleep of the interval between the attempts. *)
Theorem failed_cycle_skips_interval :
  loop 2 (boot (refDriver stuckBus))
  = Some (tt, mkState (refDriver [])
                      [EvWrite 0x77 [xf4; x2e] (Some "i2c write failed"%string);
                       EvPublish "i2c write failed"%string;
                       EvWrite 0x77 [xf4; x2e] (Some "i2c write failed"%string);
                       EvPublish "i2c write failed"%string])
  /\ option_map (fun r => intervalSleeps (interval (refDriver stuckBus)) (trace (snd r)))
                (loop 2 (boot (refDriver stuckBus)))
     = Some 0%nat.
Proof. split; reflexivity. Qed.

(** C7, as the driver has it. Acquisition never consults the calibration
    store: whatever coefficients the device holds, loaded or not, rawTemp
    and rawPressure perform the same bus calls and return the same value or
    error; an error they return is one a bus call returned. *)
Theorem acquisition_ignores_calibration {C : Type} {bus : I2c C} (s : state C)
        (cal : calibrationCoefficients) :
  rawTemp (withCalibration cal s)
  = option_map (fun rs => (fst rs, withCalibration cal (snd rs))) (rawTemp s)
  /\ rawPressure (withCalibration cal s)
     = option_map (fun rs => (fst rs, withCalibration cal (snd rs))) (rawPressure s)
  /\ (forall r s' e,
        rawTemp s = Some (r, s') \/ rawPressure s = Some (r, s') ->
        snd r = Some e ->
        exists evs, trace s' = trace s ++ evs /\ In e (busErrors evs)).
Proof.
  split; [| split].
  - unfold rawTemp, read, bind, i2cWrite, i2cRead, sleep, emit, ret, withCalibration.
    cbn [dev trace connection setCalibration].
    repeat (match goal with
            | |- context [match ?x with _ => _ end] =>
                lazymatch x with
                | context [match _ with _ => _ end] => fail
                | _ => destruct x eqn:?
                end
            end; cbn [dev trace connection setCalibration setConnection option_map fst snd]);
      reflexivity.
  - unfold rawPressure, settle, read, index, orPanic, bind, getDev,
      i2cWrite, i2cRead, sleep, emit, ret, withCalibration.
    cbn [dev trace connection mode setCalibration].
    repeat (match goal with
            | |- context [match ?x with _ => _ end] =>
                lazymatch x with
                | context [match _ with _ => _ end] => fail
                | _ => destruct x eqn:?
                end
            end;
            cbn [dev trace connection mode setCalibration setConnection option_map fst snd]);
      reflexivity.
  - intros r s' e [H | H] He.
    + destruct (rawTemp_inv _ _ _ H) as (c & evs & -> & _ & Herr).
      exists evs. split; [reflexivity | apply Herr, He].
    + destruct (rawPressure_inv _ _ _ H) as (c & evs & -> & _ & Herr).
      exists evs. split; [reflexivity | apply Herr, He].
Qed.

(** C7, as stated, fails: on a device whose calibration was never loaded,
    both acquisitions go through and return raw values, no error. *)
Lemma uncalibrated_acquisition_succeeds :
  calibration (uncalibrated []) = zeroCalibration
  /\ option_map fst (rawTemp (boot (uncalibrated [Ack []; Ack []; Ack [x6c; xfa]])))
     = Some (27898, None)
  /\ option_map fst (rawPressure (boot (uncalibrated [Ack []; Ack []; Ack [x5d; x23; x00]])))
     = Some (23843, None).
Proof. repeat split. Qed.

(** ** Construction *)

(** C10. NewBMP180Driver gives the device the name "BMP180" and the mode it
    was passed; the polling interval is 10 ms when no duration is given and
    the first duration otherwise. *)
Theorem NewBMP180Driver_defaults {C : Type} (c : C) (m : BMP180OversamplingMode)
        (i0 : Z) (rest : list Z) :
  interval (NewBMP180Driver c m []) = 10 * Millisecond
  /\ interval (NewBMP180Driver c m (i0 :: rest)) = i0
  /\ (forall i, name (NewBMP180Driver c m i) = "BMP180"%string
                /\ mode (NewBMP180Driver c m i) = m
                /\ connection (NewBMP180Driver c m i) = c).
Proof.
  split; [reflexivity | split; [reflexivity |]].
  intros [| i1 i]; repeat split.
Qed.

(** ** Compensation *)

(** C1. Whenever the divisors X1 + md of step 1 and B4 of step 8 are not
    zero, calculateTemp and calculatePressure return exactly the Temperature
    and Pressure of the documented ten-step algorithm: 32-bit signed
    intermediates (unsigned for B4 and B7), sign-extending right shifts,
    division truncating toward zero, and the B7 branch at 0x80000000. *)
Theorem compensation_documented {C : Type} (d : BMP180Driver C) (rawT rawP : Z) :
  0 <= mode d ->
  Documented.tempDivisor (calibration d) rawT <> 0 ->
  Documented.B4 (calibration d) rawT <> 0 ->
  calculateTemp d rawT = Some (Documented.Temperature (calibration d) rawT)
  /\ calculatePressure d rawT rawP
     = Some (Documented.Pressure (calibration d) (mode d) rawT rawP).
Proof.
  intros Hm Hdiv Hb4. split.
  - apply calculateTemp_documented; assumption.
  - apply calculatePressure_documented; assumption.
Qed.

(** C2. With the reference coefficients, shift amount 0, raw temperature
    27898 and raw pressure 23843, calculateTemp returns the float32 15.0 and
    calculatePressure the float32 69964. *)
Theorem reference_vector {C : Type} (c : C) :
  calibration (refDriver c) = refCal
  /\ mode (refDriver c) = 0
  /\ calculateTemp (refDriver c) 27898 = Some (Go.float32_of_int 15)
  /\ calculatePressure (refDriver c) 27898 23843 = Some (Go.float32_of_int 69964)
  /\ Go.float32_of_int 15 = S754_finite false (15 * 2 ^ 20) (-20)
  /\ Go.float32_of_int 69964 = S754_finite false (69964 * 2 ^ 7) (-7).
Proof. repeat split; vm_compute; reflexivity. Qed.

(** ** Instances on the scripted bus *)

Lemma compensation_documented_witness :
  0 <= mode (refDriver (C := scriptedBus) [])
  /\ Documented.tempDivisor refCal 27898 <> 0
  /\ Documented.B4 refCal 27898 <> 0
  /\ calculateTemp (refDriver (C := scriptedBus) []) 27898
     = Some (Documented.Temperature refCal 27898)
  /\ calculatePressure (refDriver (C := scriptedBus) []) 27898 23843
     = Some (Documented.Pressure refCal 0 27898 23843).
Proof.
  assert (Hm : 0 <= mode (refDriver (C := scriptedBus) [])) by (vm_compute; discriminate).
  assert (Hd : Documented.tempDivisor (calibration (refDriver (C := scriptedBus) [])) 27898 <> 0)
    by (vm_compute; discriminate).
  assert (Hb : Documented.B4 (calibration (refDriver (C := scriptedBus) [])) 27898 <> 0)
    by (vm_compute; discriminate).
  split; [exact Hm | split; [exact Hd | split; [exact Hb |]]].
  exact (compensation_documented (refDriver (C := scriptedBus) []) 27898 23843 Hm Hd Hb).
Defined.

Lemma rawTemp_sequence_witness :
  rawTemp (boot (uncalibrated [Ack []; Ack []; Ack [x6c; xfa]]))
  = Some ((27898, None),
          mkState (uncalibrated [])
                  [EvWrite 0x77 [xf4; x2e] None;
                   EvSleep 5000000;
                   EvWrite 0x77 [xf6] None;
                   EvRead 0x77 2 [x6c; xfa] None]).
Proof.
  exact (rawTemp_sequence (boot (uncalibrated [Ack []; Ack []; Ack [x6c; xfa]]))
                          [Ack []; Ack [x6c; xfa]] [Ack [x6c; xfa]] [] x6c xfa
                          eq_refl eq_refl eq_refl).
Defined.

Lemma rawPressure_sequence_witness :
  In BMP180UltraHighResolution oversamplingModes
  /\ rawPressure (boot (SetMode BMP180UltraHighResolution
                                (uncalibrated [Ack []; Ack []; Ack [x5d; x23; x00]])))
     = Some ((190744, None),
             mkState (SetMode BMP180UltraHighResolution (uncalibrated []))
                     [EvWrite 0x77 [xf4; xf4] None;
                      EvSleep 26000000;
                      EvWrite 0x77 [xf6] None;
                      EvRead 0x77 3 [x5d; x23; x00] None]).
Proof.
  assert (Hm : In BMP180UltraHighResolution oversamplingModes)
    by (right; right; right; left; reflexivity).
  split; [exact Hm |].
  exact (rawPressure_sequence
           (boot (SetMode BMP180UltraHighResolution
                          (uncalibrated [Ack []; Ack []; Ack [x5d; x23; x00]])))
           [Ack []; Ack [x5d; x23; x00]] [Ack [x5d; x23; x00]] [] x5d x23 x00
           BMP180UltraHighResolution eq_refl Hm eq_refl eq_refl eq_refl).
Defined.

Lemma initialization_decodes_witness :
  List.length refBlock = 22%nat
  /\ exists s',
       initialization (boot (uncalibrated [Ack []; Ack []; Ack refBlock])) = Some (None, s')
       /\ calibration (dev s') = refCal.
Proof.
  split; [reflexivity |].
  exact (proj2 (initialization_decodes
                  (boot (uncalibrated [Ack []; Ack []; Ack refBlock]))
                  [Ack []; Ack refBlock] [Ack refBlock] [] refBlock
                  eq_refl eq_refl eq_refl eq_refl) eq_refl).
Defined.

Lemma Start_load_failure_witness :
  loadFails [Ack []; Ack []; Nak "i2c read failed"%string] "i2c read failed"%string
  /\ exists s',
       Start (boot (uncalibrated [Ack []; Ack []; Nak "i2c read failed"%string]))
       = Some ((Some "i2c read failed"%string, false), s')
       /\ (forall n, run n (boot (uncalibrated [Ack []; Ack []; Nak "i2c read failed"%string]))
                     = Some (Some "i2c read failed"%string, s'))
       /\ calibration (dev s') = zeroCalibration
       /\ Temperature (dev s') = S754_zero false
       /\ Pressure (dev s') = S754_zero false
       /\ published (trace s') = [].
Proof.
  assert (H : loadFails [Ack []; Ack []; Nak "i2c read failed"%string]
                        "i2c read failed"%string).
  { right. right. exists [Ack []; Nak "i2c read failed"%string],
      [Nak "i2c read failed"%string], [], []. repeat split. }
  split; [exact H |].
  exact (Start_load_failure
           (boot (uncalibrated [Ack []; Ack []; Nak "i2c read failed"%string]))
           "i2c read failed"%string H).
Defined.

Lemma cycle_pressure_failure_witness :
  exists s',
    cycle (boot (refDriver [Ack []; Ack []; Ack [x6c; xfa]; Nak "i2c write failed"%string]))
    = Some (tt, s')
    /\ Temperature (dev s') = Go.float32_of_int 15
    /\ Pressure (dev s') = S754_zero false
    /\ published (trace s') = [] ++ ["i2c write failed"%string]
    /\ trace s' = [EvWrite 0x77 [xf4; x2e] None;
                   EvSleep 5000000;
                   EvWrite 0x77 [xf6] None;
                   EvRead 0x77 2 [x6c; xfa] None;
                   EvWrite 0x77 [xf4; x34] (Some "i2c write failed"%string)]
                  ++ [EvPublish "i2c write failed"%string].
Proof.
  exact (cycle_pressure_failure
           (boot (refDriver [Ack []; Ack []; Ack [x6c; xfa]; Nak "i2c write failed"%string]))
           (mkState (refDriver [Nak "i2c write failed"%string])
                    [EvWrite 0x77 [xf4; x2e] None;
                     EvSleep 5000000;
                     EvWrite 0x77 [xf6] None;
                     EvRead 0x77 2 [x6c; xfa] None])
           (mkState (setTemperature (Go.float32_of_int 15) (refDriver []))
                    [EvWrite 0x77 [xf4; x2e] None;
                     EvSleep 5000000;
                     EvWrite 0x77 [xf6] None;
                     EvRead 0x77 2 [x6c; xfa] None;
                     EvWrite 0x77 [xf4; x34] (Some "i2c write failed"%string)])
           27898 0 (Go.float32_of_int 15) "i2c write failed"%string
           eq_refl eq_refl eq_refl).
Defined.

Lemma acquisition_ignores_calibration_witness :
  rawTemp (withCalibration refCal (boot (uncalibrated [Ack []; Nak "i2c write failed"%string])))
  = option_map (fun rs => (fst rs, withCalibration refCal (snd rs)))
               (rawTemp (boot (uncalibrated [Ack []; Nak "i2c write failed"%string])))
  /\ rawPressure (withCalibration refCal
                    (boot (uncalibrated [Ack []; Nak "i2c write failed"%string])))
     = option_map (fun rs => (fst rs, withCalibration refCal (snd rs)))
                  (rawPressure (boot (uncalibrated [Ack []; Nak "i2c write failed"%string])))
  /\ exists evs,
       [EvWrite 0x77 [xf4; x2e] None; EvSleep 5000000;
        EvWrite 0x77 [xf6] (Some "i2c write failed"%string)] = [] ++ evs
       /\ In "i2c write failed"%string (busErrors evs).
Proof.
  destruct (acquisition_ignores_calibration
              (boot (uncalibrated [Ack []; Nak "i2c write failed"%string])) refCal)
    as (Ht & Hp & Herr).
  split; [exact Ht | split; [exact Hp |]].
  exact (Herr (0, Some "i2c write failed"%string)
              (mkState (uncalibrated [])
                       [EvWrite 0x77 [xf4; x2e] None; EvSleep 5000000;
                        EvWrite 0x77 [xf6] (Some "i2c write failed"%string)])
              "i2c write failed"%string (or_introl eq_refl) eq_refl).
Defined.

(** ** Decoding in general *)

Lemma byte_of_Z_to_Z (z : Z) : byte_to_Z (byte_of_Z z) = z mod 256.
Proof.
  unfold byte_to_Z, byte_of_Z, Go.uint8.
  rewrite Z.land_ones by lia. change (2 ^ 8) with 256.
  assert (Hr : 0 <= z mod 256 < 256) by (apply Z.mod_pos_bound; lia).
  destruct (Byte.of_N (Z.to_N (z mod 256))) as [b |] eqn:E.
  - apply Byte.to_of_N in E. rewrite E. lia.
  - apply Byte.of_N_None_iff in E. lia.
Qed.

Lemma be16_word (v : Z) :
  256 * byte_to_Z (byte_of_Z (Z.shiftr v 8)) + byte_to_Z (byte_of_Z v) = v mod 65536.
Proof.
  rewrite !byte_of_Z_to_Z, Z.shiftr_div_pow2 by lia. change (2 ^ 8) with 256.
  change 65536 with (256 * 256).
  rewrite (Z.rem_mul_r v 256 256) by lia. lia.
Qed.

Lemma signed16_wrap (v : Z) : isInt16 v -> Documented.signed16 (v mod 65536) = v.
Proof.
  unfold isInt16, Documented.signed16. intros Hv.
  destruct (Z.lt_ge_cases v 0) as [Hneg | Hpos].
  - assert (E : v mod 65536 = v + 65536).
    { symmetry. apply (Z.mod_unique_pos _ _ (-1)); lia. }
    rewrite E. destruct (Z.ltb_spec (v + 65536) 32768); lia.
  - rewrite Z.mod_small by lia. destruct (Z.ltb_spec v 32768); lia.
Qed.

Lemma int16_range (z : Z) : isInt16 (Go.int16 z).
Proof.
  unfold isInt16, Go.int16. cbv zeta. rewrite uint16_mod.
  assert (Hr : 0 <= z mod 2 ^ 16 < 2 ^ 16) by (apply Z.mod_pos_bound; lia).
  change 15 with (16 - 1). rewrite (testbit_top 16) by lia.
  change (2 ^ (16 - 1)) with 32768 in *. change (2 ^ 16) with 65536 in *.
  destruct (Z.leb_spec 32768 (z mod 65536)); lia.
Qed.

Lemma readUint16_range (buf rest : list byte) (r : option Z) (old : Z) :
  readUint16 buf = (r, rest) -> isUint16 old -> isUint16 (orKeep old r).
Proof.
  intros H Hold. destruct buf as [| hi [| lo tl]]; try (injection H as <- _; exact Hold).
  rewrite readUint16_cons in H.
  assert (E : r = Some (256 * byte_to_Z hi + byte_to_Z lo)) by congruence.
  subst r.
  pose proof (byte_to_Z_range hi). pose proof (byte_to_Z_range lo).
  unfold isUint16, orKeep. lia.
Qed.

Lemma readInt16_range (buf rest : list byte) (r : option Z) (old : Z) :
  readInt16 buf = (r, rest) -> isInt16 old -> isInt16 (orKeep old r).
Proof.
  intros H Hold. unfold readInt16 in H.
  destruct (readUint16 buf) as [[u |] rest'].
  - injection H as <- _. apply int16_range.
  - injection H as <- _. exact Hold.
Qed.

(** X1. Decoding undoes the big-endian layout: the block that encodes a
    record of in-range coefficients decodes to that record, whatever the
    store held before. *)
Theorem decode_encode (c0 c : calibrationCoefficients) :
  wellTyped c -> readCoefficients c0 (encodeCalibration c) = c.
Proof.
  intros (H1 & H2 & H3 & H4 & H5 & H6 & H7 & H8 & H9 & H10 & H11).
  destruct c as [v1 v2 v3 v4 v5 v6 v7 v8 v9 v10 v11].
  cbn [ac1 ac2 ac3 ac4 ac5 ac6 b1 b2 mb mc md] in *.
  unfold encodeCalibration, readCoefficients.
  cbn [flat_map be16 app ac1 ac2 ac3 ac4 ac5 ac6 b1 b2 mb mc md].
  repeat (rewrite ?readInt16_cons, ?readUint16_cons; cbv beta iota).
  unfold orKeep. rewrite !be16_word.
  rewrite !signed16_wrap by assumption.
  unfold isUint16 in *. rewrite !Z.mod_small by lia.
  reflexivity.
Qed.

(** X2. Decoding any block, of any length, over any store: a coefficient
    takes the value of its word when the block holds both bytes of it and
    keeps its previous value otherwise; bytes past the 22nd are ignored. *)
Theorem readCoefficients_any_length (c : calibrationCoefficients) (block : list byte) :
  readCoefficients c block
  = mkCal (fieldAfter true (ac1 c) block 0) (fieldAfter true (ac2 c) block 1)
          (fieldAfter true (ac3 c) block 2) (fieldAfter false (ac4 c) block 3)
          (fieldAfter false (ac5 c) block 4) (fieldAfter false (ac6 c) block 5)
          (fieldAfter true (b1 c) block 6) (fieldAfter true (b2 c) block 7)
          (fieldAfter true (mb c) block 8) (fieldAfter true (mc c) block 9)
          (fieldAfter true (md c) block 10).
Proof.
  unfold readCoefficients.
  do 22 (destruct block as [| ? block];
         [ repeat (rewrite ?readInt16_cons, ?readUint16_cons; cbv beta iota); reflexivity |]).
  repeat (rewrite ?readInt16_cons, ?readUint16_cons; cbv beta iota); reflexivity.
Qed.

(** X3. Decoding keeps the coefficients inside their Go types: if the store
    was in range before, it is in range after decoding any block. *)
Theorem readCoefficients_wellTyped (c : calibrationCoefficients) (block : list byte) :
  wellTyped c -> wellTyped (readCoefficients c block).
Proof.
  intros (H1 & H2 & H3 & H4 & H5 & H6 & H7 & H8 & H9 & H10 & H11).
  unfold readCoefficients.
  repeat match goal with
         | |- context [readInt16 ?b] => destruct (readInt16 b) eqn:?
         | |- context [readUint16 ?b] => destruct (readUint16 b) eqn:?
         end.
  unfold wellTyped. cbn [ac1 ac2 ac3 ac4 ac5 ac6 b1 b2 mb mc md].
  repeat split;
    solve [ eapply readInt16_range; eassumption
          | eapply readUint16_range; eassumption ].
Qed.

(** ** Footprints *)

Ltac run_all H :=
  repeat (cbn [dev trace connection mode calibration setConnection fst snd] in H;
          match type of H with
          | context [match ?x with _ => _ end] =>
              lazymatch x with
              | context [match _ with _ => _ end] => fail
              | _ => destruct x eqn:?
              end
          end);
  try discriminate H;
  try (inversion H; subst; clear H).

Ltac footprint_done :=
  cbn [dev trace connection name interval mode calibration Temperature Pressure
       setConnection setCalibration fst snd];
  eexists; split; [ rewrite <- ?app_assoc; reflexivity |];
  repeat match goal with
         | |- _ /\ _ => split
         | |- Forall _ _ => repeat constructor
         | |- _ = _ => reflexivity
         | |- _ -> _ => intro
         | H : ?x <> ?x |- _ => destruct (H eq_refl)
         end.

Section Footprints.
Context {C : Type} {bus : I2c C}.

Lemma read_footprint (s s' : state C) (address : byte) (n : Z)
      (r : list byte) (err : option error) :
  read address n s = Some ((r, err), s') ->
  exists evs,
    trace s' = trace s ++ evs
    /\ published evs = [] /\ sleeps evs = [] /\ busErrors evs = errs err
    /\ Forall toDevice evs
    /\ sameConfig (dev s) (dev s') /\ sameReadings (dev s) (dev s')
    /\ (err <> None -> r = []).
Proof.
  unfold read, bind, i2cWrite, i2cRead, ret, sameConfig, sameReadings.
  intros H. run_all H; footprint_done.
Qed.

Lemma rawTemp_footprint (s s' : state C) (v : Z) (err : option error) :
  rawTemp s = Some ((v, err), s') ->
  exists evs,
    trace s' = trace s ++ evs
    /\ published evs = [] /\ busErrors evs = errs err
    /\ Forall toDevice evs
    /\ sameConfig (dev s) (dev s') /\ sameReadings (dev s) (dev s')
    /\ (err <> None -> v = 0).
Proof.
  unfold rawTemp, read, bind, i2cWrite, i2cRead, sleep, emit, ret, sameConfig, sameReadings.
  intros H. run_all H; footprint_done.
Qed.

Lemma rawPressure_footprint (s s' : state C) (v : Z) (err : option error) :
  rawPressure s = Some ((v, err), s') ->
  exists evs,
    trace s' = trace s ++ evs
    /\ published evs = [] /\ busErrors evs = errs err
    /\ Forall toDevice evs
    /\ sameConfig (dev s) (dev s') /\ sameReadings (dev s) (dev s')
    /\ (err <> None -> v = 0).
Proof.
  unfold rawPressure, settle, read, index, orPanic, bind, getDev,
    i2cWrite, i2cRead, sleep, emit, ret, sameConfig, sameReadings.
  intros H. run_all H; footprint_done.
Qed.


End Footprints.

Lemma published_app (l l' : list event) : published (l ++ l') = published l ++ published l'.
Proof. apply flat_map_app. Qed.

Lemma busErrors_app (l l' : list event) : busErrors (l ++ l') = busErrors l ++ busErrors l'.
Proof. apply flat_map_app. Qed.

Lemma sleeps_app (l l' : list event) : sleeps (l ++ l') = sleeps l ++ sleeps l'.
Proof. apply flat_map_app. Qed.

(** The compensation reads the calibration and the mode, nothing else. *)
Lemma calculateTemp_config {C : Type} (d d' : BMP180Driver C) (rawT : Z) :
  calibration d' = calibration d -> calculateTemp d' rawT = calculateTemp d rawT.
Proof. intros E. unfold calculateTemp, calculateB5. rewrite E. reflexivity. Qed.

Lemma calculatePressure_config {C : Type} (d d' : BMP180Driver C) (rawT rawP : Z) :
  calibration d' = calibration d -> mode d' = mode d ->
  calculatePressure d' rawT rawP = calculatePressure d rawT rawP.
Proof. intros E Em. unfold calculatePressure, calculateB5. rewrite E, Em. reflexivity. Qed.

Section LoopFootprints.
Context {C : Type} {bus : I2c C}.

Lemma cycle_footprint (s s' : state C) :
  cycle s = Some (tt, s') ->
  exists evs,
    trace s' = trace s ++ evs
    /\ published evs = busErrors evs
    /\ (List.length (published evs) <= 1)%nat
    /\ Forall toDevice evs
    /\ sameConfig (dev s) (dev s').
Proof.
  unfold cycle, bind, getDev. intros H.
  destruct (rawTemp s) as [[[rawT [e |]] s1] |] eqn:Ht; [| | discriminate H].
  - destruct (rawTemp_footprint _ _ _ _ Ht) as (evs & Etr & Hpub & Hbus & Hto & Hcfg & _).
    unfold publish, emit in H. injection H as <-. cbn [dev trace].
    exists (evs ++ [EvPublish e]). rewrite Etr, <- app_assoc.
    rewrite published_app, busErrors_app, Hpub, Hbus.
    split; [reflexivity |]. split; [reflexivity |]. split; [cbn; lia |].
    split; [| exact Hcfg].
    apply Forall_app. split; [exact Hto | repeat constructor].
  - destruct (rawTemp_footprint _ _ _ _ Ht) as (evs & Etr & Hpub & Hbus & Hto & Hcfg & _).
    unfold orPanic, setDev in H. cbn [dev trace] in H.
    destruct (calculateTemp (dev s1) rawT) as [t |]; [| discriminate H].
    destruct (rawPressure (mkState (setTemperature t (dev s1)) (trace s1)))
      as [[[rawP [e |]] s2] |] eqn:Hp; [| | discriminate H].
    + destruct (rawPressure_footprint _ _ _ _ Hp)
        as (evs2 & Etr2 & Hpub2 & Hbus2 & Hto2 & Hcfg2 & _).
      cbn [dev trace] in Etr2, Hcfg2.
      unfold publish, emit in H. injection H as <-. cbn [dev trace].
      exists (evs ++ evs2 ++ [EvPublish e]).
      rewrite Etr2, Etr, <- !app_assoc.
      rewrite !published_app, !busErrors_app, Hpub, Hbus, Hpub2, Hbus2.
      destruct Hcfg as (? & ? & ? & ?), Hcfg2 as (? & ? & ? & ?).
      cbn [name interval mode calibration setTemperature] in *.
      split; [reflexivity |]. split; [reflexivity |]. split; [cbn; lia |].
      split; [| unfold sameConfig; repeat split; congruence].
      repeat (apply Forall_app; split); [exact Hto | exact Hto2 | repeat constructor].
    + destruct (rawPressure_footprint _ _ _ _ Hp)
        as (evs2 & Etr2 & Hpub2 & Hbus2 & Hto2 & Hcfg2 & _).
      cbn [dev trace] in Etr2, Hcfg2. cbn [dev trace] in H.
      destruct (calculatePressure (dev s2) rawT rawP) as [p |]; [| discriminate H].
      unfold sleep, emit in H. cbn [dev trace] in H. injection H as <-. cbn [dev trace].
      exists (evs ++ evs2 ++ [EvSleep (interval (setPressure p (dev s2)))]).
      rewrite Etr2, Etr, <- !app_assoc.
      rewrite !published_app, !busErrors_app, Hpub, Hbus, Hpub2, Hbus2.
      destruct Hcfg as (? & ? & ? & ?), Hcfg2 as (? & ? & ? & ?).
      cbn [name interval mode calibration setTemperature setPressure] in *.
      split; [reflexivity |]. split; [reflexivity |]. split; [cbn; lia |].
      split; [| unfold sameConfig; cbn [name interval mode calibration setPressure];
                repeat split; congruence].
      repeat (apply Forall_app; split); [exact Hto | exact Hto2 | repeat constructor].
Qed.

Lemma loop_footprint (n : nat) (s s' : state C) :
  loop n s = Some (tt, s') ->
  exists evs,
    trace s' = trace s ++ evs
    /\ published evs = busErrors evs
    /\ (List.length (published evs) <= n)%nat
    /\ Forall toDevice evs
    /\ sameConfig (dev s) (dev s').
Proof.
  revert s. induction n as [| n IH]; intros s H.
  - injection H as <-. exists []. rewrite app_nil_r.
    split; [reflexivity |]. split; [reflexivity |]. split; [cbn; lia |].
    split; [constructor | repeat split].
  - cbn [loop] in H. unfold bind in H.
    destruct (cycle s) as [[[] s1] |] eqn:Hc; [| discriminate H].
    destruct (cycle_footprint _ _ Hc) as (evs1 & E1 & Hp1 & Hl1 & Ht1 & Hc1).
    destruct (IH _ H) as (evs2 & E2 & Hp2 & Hl2 & Ht2 & Hc2).
    exists (evs1 ++ evs2). rewrite E2, E1, <- app_assoc.
    rewrite published_app, busErrors_app, Hp1, Hp2.
    rewrite <- Hp1, <- Hp2, length_app.
    destruct Hc1 as (? & ? & ? & ?), Hc2 as (? & ? & ? & ?).
    split; [reflexivity |]. split; [reflexivity |]. split; [lia |].
    split; [apply Forall_app; split; assumption |].
    unfold sameConfig. repeat split; congruence.
Qed.

End LoopFootprints.

(** ** The loop as a whole *)

(** X4. Polling never reconfigures the device: after any number of passes
    that ran without panic, name, interval, mode and calibration are what
    they were; only the two readings and the connection can differ. *)
Theorem loop_keeps_configuration {C : Type} {bus : I2c C} (n : nat) (s s' : state C) :
  loop n s = Some (tt, s') ->
  name (dev s') = name (dev s)
  /\ interval (dev s') = interval (dev s)
  /\ mode (dev s') = mode (dev s)
  /\ calibration (dev s') = calibration (dev s).
Proof.
  intros H. destruct (loop_footprint n s s' H) as (evs & _ & _ & _ & _ & Hcfg).
  exact Hcfg.
Qed.




(** ** Acquisition at the edges *)

Ltac split_goal_cases :=
  repeat (match goal with
          | |- context [match ?x with _ => _ end] =>
              lazymatch x with
              | context [match _ with _ => _ end] => fail
              | _ => destruct x eqn:?
              end
          end; cbn [dev trace connection mode setConnection fst snd]).

Lemma nth_byte_range (l : list byte) (i : nat) (z : Z) :
  option_map byte_to_Z (nth_error l i) = Some z -> exists b, z = byte_to_Z b.
Proof.
  destruct (nth_error l i) as [b |]; [| discriminate].
  cbn. intros H. exists b. congruence.
Qed.

Lemma pressure_bytes_sum (byte0 byte1 byte2 : byte) :
  Go.add32 (Go.add32 (Go.shl32 (Go.int32 (byte_to_Z byte0)) 16)
                     (Go.shl32 (Go.int32 (byte_to_Z byte1)) 8))
           (Go.int32 (byte_to_Z byte2))
  = byte_to_Z byte0 * 65536 + byte_to_Z byte1 * 256 + byte_to_Z byte2.
Proof.
  pose proof (byte_to_Z_range byte0) as H0.
  pose proof (byte_to_Z_range byte1) as H1.
  pose proof (byte_to_Z_range byte2) as H2.
  unfold Go.add32, Go.shl32.
  rewrite !Z.shiftl_mul_pow2 by lia.
  rewrite !(int32_small (byte_to_Z _)) by lia.
  rewrite !(int32_small (byte_to_Z _ * _)) by lia.
  rewrite (int32_small (_ * _ + _ * _)) by lia.
  rewrite int32_small by lia.
  lia.
Qed.

Section AcquisitionEdges.
Context {C : Type} {bus : I2c C}.

Lemma settle_state (m : BMP180OversamplingMode) (s : state C) :
  exists evs, settle m s = Some (tt, mkState (dev s) (trace s ++ evs))
              /\ (3 < m -> evs = []).
Proof.
  unfold settle, sleep, emit, ret,
    BMP180UltraLowPower, BMP180Standard, BMP180HighResolution, BMP180UltraHighResolution.
  destruct (Z.eqb_spec m 0); [eexists; split; [reflexivity | lia] |].
  destruct (Z.eqb_spec m 1); [eexists; split; [reflexivity | lia] |].
  destruct (Z.eqb_spec m 2); [eexists; split; [reflexivity | lia] |].
  destruct (Z.eqb_spec m 3); [eexists; split; [reflexivity | lia] |].
  exists []. rewrite app_nil_r. destruct s. split; reflexivity.
Qed.

End AcquisitionEdges.

(** X8. rawTemp never panics, whatever the bus answers: it always returns,
    its value is within int16, and together with an error the value is 0. *)
Theorem rawTemp_total {C : Type} {bus : I2c C} (s : state C) :
  exists v err s',
    rawTemp s = Some ((v, err), s')
    /\ isInt16 v
    /\ (err <> None -> v = 0).
Proof.
  assert (Hrun : exists r s', rawTemp s = Some (r, s')).
  { unfold rawTemp, read, bind, i2cWrite, i2cRead, sleep, emit, ret.
    split_goal_cases; eauto. }
  destruct Hrun as ([v err] & s' & H).
  exists v, err, s'. split; [exact H |].
  split.
  - unfold rawTemp, read, bind, i2cWrite, i2cRead, sleep, emit, ret in H.
    run_all H; try (unfold isInt16; lia).
    match goal with
    | |- isInt16 (orKeep 0 (fst (readInt16 ?l))) =>
        destruct (readInt16 l) as [r rest] eqn:E
    end.
    cbn [fst]. eapply readInt16_range; [exact E | unfold isInt16; lia].
  - destruct (rawTemp_footprint _ _ _ _ H) as (_ & _ & _ & _ & _ & _ & _ & Hv).
    exact Hv.
Qed.

(** X9. A temperature read that comes back short is not noticed: when the
    bus reports success but hands back fewer than 2 bytes, rawTemp returns
    the value 0 with a nil error. *)
Theorem rawTemp_short_read {C : Type} {bus : I2c C} (s : state C) (c1 c2 c3 : C)
        (r : list byte) :
  (List.length r < 2)%nat ->
  I2cWrite (connection (dev s)) 0x77 [xf4; x2e] = (None, c1) ->
  I2cWrite c1 0x77 [xf6] = (None, c2) ->
  I2cRead c2 0x77 2 = ((r, None), c3) ->
  option_map fst (rawTemp s) = Some (0, None).
Proof.
  intros Hlen Hcmd Hreg Hread. unfold rawTemp, bind.
  change (byte_of_Z bmp180RegisterCtl) with xf4.
  change (byte_of_Z bmp180CmdTemp) with x2e.
  change (byte_of_Z bmp180RegisterTempMSB) with xf6.
  rewrite (i2cWrite_run s _ _ None c1) by exact Hcmd.
  unfold sleep, emit. cbn [dev trace].
  erewrite read_ok; [| exact Hreg | exact Hread].
  destruct r as [| b0 [| b1 r]]; [reflexivity | reflexivity | cbn in Hlen; lia].
Qed.

(** X10. A pressure read that comes back short crashes the caller: when the
    bus reports success but hands back fewer than 3 bytes, rawPressure
    panics on the out-of-range index, in every mode. *)
Theorem rawPressure_short_read_panics {C : Type} {bus : I2c C} (s : state C)
        (c1 c2 c3 : C) (r : list byte) :
  (List.length r < 3)%nat ->
  I2cWrite (connection (dev s)) 0x77
           [xf4; byte_of_Z (Go.add8 bmp180CmdPressure (Go.uint8 (Go.ushl (mode (dev s)) 6)))]
  = (None, c1) ->
  I2cWrite c1 0x77 [xf6] = (None, c2) ->
  I2cRead c2 0x77 3 = ((r, None), c3) ->
  rawPressure s = None.
Proof.
  intros Hlen Hcmd Hreg Hread. unfold rawPressure, bind, getDev.
  change (byte_of_Z bmp180RegisterCtl) with xf4.
  change (byte_of_Z bmp180RegisterPressureMSB) with xf6.
  rewrite (i2cWrite_run s _ _ None c1) by exact Hcmd.
  cbn [dev trace mode setConnection].
  match goal with
  | |- context [settle ?m ?st] => destruct (settle_state m st) as (evs & -> & _)
  end.
  cbn [dev trace].
  erewrite read_ok; [| exact Hreg | exact Hread].
  unfold index, orPanic.
  destruct r as [| b0 [| b1 [| b2 r]]]; try reflexivity.
  cbn in Hlen. lia.
Qed.

(** X11. In each of the four modes the raw pressure rawPressure returns is
    a non-negative number of 16 + mode bits: 0 <= v < 2^(16 + mode). *)
Theorem rawPressure_range {C : Type} {bus : I2c C} (s s' : state C)
        (v : Z) (err : option error) :
  In (mode (dev s)) oversamplingModes ->
  rawPressure s = Some ((v, err), s') ->
  0 <= v < 2 ^ (16 + mode (dev s)).
Proof.
  intros Hm H.
  assert (Hrange : 0 <= mode (dev s) <= 3).
  { repeat (destruct Hm as [<- | Hm]; [cbv; split; discriminate |]). destruct Hm. }
  assert (Hpow : 0 < 2 ^ (16 + mode (dev s))) by (apply Z.pow_pos_nonneg; lia).
  unfold rawPressure, settle, read, index, orPanic, bind, getDev,
    i2cWrite, i2cRead, sleep, emit, ret in H.
  run_all H; try lia.
  all: repeat match goal with
              | E : option_map byte_to_Z (nth_error _ _) = Some ?z |- _ =>
                  apply nth_byte_range in E; destruct E as [? ->]
              end.
  all: rewrite pressure_bytes_sum, (pressure_shift_count _ Hm).
  all: unfold Go.shr32; rewrite Z.shiftr_div_pow2 by lia.
  all: match goal with
       | |- context [byte_to_Z ?a * 65536 + byte_to_Z ?b * 256 + byte_to_Z ?c] =>
           pose proof (byte_to_Z_range a); pose proof (byte_to_Z_range b);
           pose proof (byte_to_Z_range c)
       end.
  all: assert (Hd : 0 < 2 ^ (8 - mode (dev s))) by (apply Z.pow_pos_nonneg; lia).
  all: assert (Hsplit : 2 ^ 24 = 2 ^ (8 - mode (dev s)) * 2 ^ (16 + mode (dev s)))
         by (rewrite <- Z.pow_add_r by lia; f_equal; lia).
  all: split; [apply Z.div_pos; lia | apply Z.div_lt_upper_bound; lia].
Qed.

(** X12. A mode outside the four named ones gets no settle time: the
    switch has no default case, so rawPressure goes from the command
    straight to the read, with no sleep in between. *)
Theorem rawPressure_unknown_mode {C : Type} {bus : I2c C} (s : state C) (c1 c2 c3 : C)
        (byte0 byte1 byte2 : byte) (cmd : byte) :
  3 < mode (dev s) ->
  cmd = byte_of_Z (Go.add8 bmp180CmdPressure (Go.uint8 (Go.ushl (mode (dev s)) 6))) ->
  I2cWrite (connection (dev s)) 0x77 [xf4; cmd] = (None, c1) ->
  I2cWrite c1 0x77 [xf6] = (None, c2) ->
  I2cRead c2 0x77 3 = (([byte0; byte1; byte2], None), c3) ->
  exists v,
    rawPressure s
    = Some ((v, None),
            mkState (setConnection c3 (dev s))
                    (trace s ++ [EvWrite 0x77 [xf4; cmd] None;
                                 EvWrite 0x77 [xf6] None;
                                 EvRead 0x77 3 [byte0; byte1; byte2] None])).
Proof.
  intros Hm -> Hcmd Hreg Hread. unfold rawPressure, bind, getDev.
  change (byte_of_Z bmp180RegisterCtl) with xf4.
  change (byte_of_Z bmp180RegisterPressureMSB) with xf6.
  rewrite (i2cWrite_run s _ _ None c1) by exact Hcmd.
  cbn [dev trace mode setConnection].
  match goal with
  | |- context [settle ?m ?st] => destruct (settle_state m st) as (evs & -> & Hevs)
  end.
  rewrite (Hevs Hm), app_nil_r. cbn [dev trace].
  erewrite read_ok; [| exact Hreg | exact Hread].
  unfold index, orPanic, ret. cbn [nth_error option_map dev trace mode setConnection].
  eexists. rewrite <- !app_assoc. reflexivity.
Qed.

(** ** When the compensation panics *)

Opaque Documented.s32 Documented.u32 Documented.sar Documented.shl Documented.tdiv Z.mul Z.add Z.sub.

Lemma calculateB5_none {C : Type} (d : BMP180Driver C) (rawT : Z) :
  Documented.tempDivisor (calibration d) rawT = 0 -> calculateB5 d rawT = None.
Proof.
  intros Hdiv. unfold calculateB5. cbv zeta.
  match goal with
  | |- context [Go.quo32 _ ?b] =>
      assert (E : b = Documented.tempDivisor (calibration d) rawT)
  end.
  { unfold Documented.tempDivisor, Documented.X1. documented. reflexivity. }
  rewrite E, Hdiv. reflexivity.
Qed.

Lemma calculatePressure_none {C : Type} (d : BMP180Driver C) (rawT rawP : Z) :
  Documented.tempDivisor (calibration d) rawT <> 0 ->
  Documented.B4 (calibration d) rawT = 0 ->
  calculatePressure d rawT rawP = None.
Proof.
  intros Hdiv Hb4. unfold calculatePressure.
  rewrite calculateB5_documented by assumption.
  assert (Eb6 : Go.sub32 (Documented.B5 (calibration d) rawT) 4000
                = Documented.B6 (calibration d) rawT).
  { unfold Documented.B6. documented. reflexivity. }
  rewrite !Eb6.
  match goal with
  | |- context [Go.uquo32 _ ?b4] =>
      assert (Eb4 : b4 = Documented.B4 (calibration d) rawT)
  end.
  { unfold Documented.B4, Documented.X3_6, Documented.X1_6, Documented.X2_6.
    generalize (Documented.B6 (calibration d) rawT). intros b6.
    documented. reflexivity. }
  rewrite !Eb4, Hb4. unfold Go.uquo32. cbn [Z.eqb].
  match goal with
  | |- context [if ?b then _ else _] => destruct b
  end; reflexivity.
Qed.

Transparent Documented.s32 Documented.u32 Documented.sar Documented.shl Documented.tdiv Z.mul Z.add Z.sub.

Lemma zero_calibration_divisor (rawT : Z) :
  Documented.tempDivisor zeroCalibration rawT = 0.
Proof.
  unfold Documented.tempDivisor, Documented.X1. cbn [ac5 ac6 md zeroCalibration].
  rewrite Z.mul_0_r. reflexivity.
Qed.

(** X13. The compensation panics exactly on a zero divisor: calculateTemp
    panics if and only if X1 + md is zero, and calculatePressure if and
    only if X1 + md or B4 is zero. *)
Theorem compensation_panics_iff {C : Type} (d : BMP180Driver C) (rawT rawP : Z) :
  0 <= mode d ->
  (calculateTemp d rawT = None <-> Documented.tempDivisor (calibration d) rawT = 0)
  /\ (calculatePressure d rawT rawP = None
      <-> Documented.tempDivisor (calibration d) rawT = 0
          \/ Documented.B4 (calibration d) rawT = 0).
Proof.
  intros Hm. split; split.
  - intros H. destruct (Z.eq_dec (Documented.tempDivisor (calibration d) rawT) 0) as [E | N];
      [exact E |].
    rewrite calculateTemp_documented in H by assumption. discriminate H.
  - intros E. unfold calculateTemp. rewrite (calculateB5_none d rawT E). reflexivity.
  - intros H.
    destruct (Z.eq_dec (Documented.tempDivisor (calibration d) rawT) 0) as [E | N];
      [left; exact E |].
    destruct (Z.eq_dec (Documented.B4 (calibration d) rawT) 0) as [E4 | N4];
      [right; exact E4 |].
    rewrite calculatePressure_documented in H by assumption. discriminate H.
  - intros [E | E4].
    + unfold calculatePressure. rewrite (calculateB5_none d rawT E). reflexivity.
    + destruct (Z.eq_dec (Documented.tempDivisor (calibration d) rawT) 0) as [E | N].
      * unfold calculatePressure. rewrite (calculateB5_none d rawT E). reflexivity.
      * apply calculatePressure_none; assumption.
Qed.

(** X14. On a device whose calibration is still all zero, as the
    constructor leaves it, both compensation functions panic with a
    division by zero for every input, and so does a pass of the polling
    loop as soon as its temperature acquisition succeeds. *)
Theorem zero_calibration_panics {C : Type} {bus : I2c C} (s s1 : state C)
        (rawT rawP : Z) :
  calibration (dev s) = zeroCalibration ->
  calculateTemp (dev s) rawT = None
  /\ calculatePressure (dev s) rawT rawP = None
  /\ (rawTemp s = Some ((rawT, None), s1) -> cycle s = None).
Proof.
  intros Hcal.
  assert (Hdiv : Documented.tempDivisor (calibration (dev s)) rawT = 0)
    by (rewrite Hcal; apply zero_calibration_divisor).
  assert (Ht : calculateTemp (dev s) rawT = None).
  { unfold calculateTemp. rewrite (calculateB5_none _ _ Hdiv). reflexivity. }
  split; [exact Ht | split].
  - unfold calculatePressure. rewrite (calculateB5_none _ _ Hdiv). reflexivity.
  - intros Hraw.
    destruct (rawTemp_footprint _ _ _ _ Hraw) as (_ & _ & _ & _ & _ & (_ & _ & _ & Ec) & _).
    unfold cycle, bind, getDev. rewrite Hraw.
    rewrite (calculateTemp_config (dev s) (dev s1) rawT Ec), Ht. reflexivity.
Qed.

(** ** A pass of the loop, case by case *)

(** X15. A pass whose temperature acquisition fails: the error is published
    once, the pass ends there without any pressure command or sleep being
    added, and both readings and the configuration are as before. *)
Theorem cycle_temperature_failure {C : Type} {bus : I2c C} (s s1 : state C)
        (v : Z) (e : error) :
  rawTemp s = Some ((v, Some e), s1) ->
  exists s',
    cycle s = Some (tt, s')
    /\ trace s' = trace s1 ++ [EvPublish e]
    /\ published (trace s') = published (trace s) ++ [e]
    /\ Temperature (dev s') = Temperature (dev s)
    /\ Pressure (dev s') = Pressure (dev s)
    /\ calibration (dev s') = calibration (dev s)
    /\ mode (dev s') = mode (dev s).
Proof.
  intros H.
  destruct (rawTemp_footprint _ _ _ _ H)
    as (evs & Etr & Hpub & _ & _ & (_ & _ & Em & Ec) & (Et & Ep) & _).
  exists (mkState (dev s1) (trace s1 ++ [EvPublish e])).
  split; [apply cycle_rawTemp_failure with (v := v); exact H |].
  cbn [dev trace]. split; [reflexivity |].
  split.
  { rewrite Etr, !published_app, Hpub, app_nil_r. reflexivity. }
  repeat split; assumption.
Qed.

(** X16. A pass in which both acquisitions succeed and the compensation
    returns: Temperature and Pressure are both replaced by the values
    computed from this pass's raw samples, nothing is published, and the
    pass ends with one sleep of the polling interval. *)
Theorem cycle_success_updates {C : Type} {bus : I2c C} (s s1 s2 : state C)
        (rawT rawP : Z) (t p : Go.float32) :
  rawTemp s = Some ((rawT, None), s1) ->
  calculateTemp (dev s) rawT = Some t ->
  rawPressure (mkState (setTemperature t (dev s1)) (trace s1)) = Some ((rawP, None), s2) ->
  calculatePressure (dev s) rawT rawP = Some p ->
  exists s',
    cycle s = Some (tt, s')
    /\ Temperature (dev s') = t
    /\ Pressure (dev s') = p
    /\ trace s' = trace s2 ++ [EvSleep (interval (dev s))]
    /\ published (trace s') = published (trace s).
Proof.
  intros Ht Hct Hp Hcp.
  destruct (rawTemp_footprint _ _ _ _ Ht)
    as (evs1 & Etr1 & Hpub1 & _ & _ & (_ & Ei1 & Em1 & Ec1) & _ & _).
  destruct (rawPressure_footprint _ _ _ _ Hp)
    as (evs2 & Etr2 & Hpub2 & _ & _ & (_ & Ei2 & Em2 & Ec2) & (Et2 & _) & _).
  cbn [dev trace interval mode calibration Temperature setTemperature] in *.
  exists (mkState (setPressure p (dev s2)) (trace s2 ++ [EvSleep (interval (dev s2))])).
  split.
  { apply cycle_success with (s1 := s1) (rawT := rawT) (rawP := rawP) (t := t).
    - exact Ht.
    - rewrite (calculateTemp_config (dev s) (dev s1) rawT Ec1). exact Hct.
    - exact Hp.
    - rewrite (calculatePressure_config (dev s) (dev s2) rawT rawP); [exact Hcp | |];
        congruence. }
  cbn [dev trace Temperature Pressure setPressure].
  split; [exact Et2 |]. split; [reflexivity |].
  split; [rewrite Ei2, Ei1; reflexivity |].
  rewrite Etr2, Etr1, !published_app, Hpub1, Hpub2. cbn. rewrite !app_nil_r. reflexivity.
Qed.

(** ** The register read and the command byte *)

(** X17. read hands back bytes only together with a nil error: with an
    error it returns no bytes, even if the bus delivered some. The error it
    returns is the one a bus call returned, and it neither sleeps nor
    publishes nor changes a reading. *)
Theorem read_error_has_no_data {C : Type} {bus : I2c C} (s s' : state C)
        (address : byte) (n : Z) (r : list byte) (err : option error) :
  read address n s = Some ((r, err), s') ->
  (err <> None -> r = [])
  /\ exists evs,
       trace s' = trace s ++ evs
       /\ busErrors evs = errs err
       /\ sleeps evs = [] /\ published evs = []
       /\ Temperature (dev s') = Temperature (dev s)
       /\ Pressure (dev s') = Pressure (dev s).
Proof.
  intros H.
  destruct (read_footprint _ _ _ _ _ _ H)
    as (evs & Etr & Hpub & Hsl & Hbus & _ & _ & (Et & Ep) & Hr).
  split; [exact Hr |].
  exists evs. repeat split; assumption.
Qed.

(** X18. Only the two low bits of the mode reach the sensor: for every
    mode value the second command byte is 0x34 + 64 * (mode mod 4), so a
    mode beyond 3 sends the command of mode mod 4. *)
Theorem pressure_command_aliases (m : BMP180OversamplingMode) :
  0 <= m ->
  Go.add8 bmp180CmdPressure (Go.uint8 (Go.ushl m 6)) = 0x34 + 64 * (m mod 4).
Proof.
  intros Hm. unfold Go.add8, Go.uint8, Go.ushl, Go.uint, Go.uintBits, bmp180CmdPressure.
  rewrite !Z.land_ones by lia. rewrite Z.shiftl_mul_pow2 by lia.
  change (2 ^ 6) with 64.
  assert (E : ((m * 64) mod 2 ^ 64) mod 2 ^ 8 = (m mod 4) * 64).
  { rewrite Z.mod_mod_divide by (exists (2 ^ 56); reflexivity).
    change (2 ^ 8) with (4 * 64). apply Zmult_mod_distr_r. }
  rewrite E.
  assert (Hr : 0 <= m mod 4 < 4) by (apply Z.mod_pos_bound; lia).
  rewrite Z.mod_small by lia. lia.
Qed.

(** ** Further instances on the scripted bus *)

Lemma decode_encode_witness :
  wellTyped (mkCal 1 (-1) 32767 65535 0 1 (-32768) 0 2 3 4)
  /\ readCoefficients refCal (encodeCalibration (mkCal 1 (-1) 32767 65535 0 1 (-32768) 0 2 3 4))
     = mkCal 1 (-1) 32767 65535 0 1 (-32768) 0 2 3 4.
Proof.
  assert (H : wellTyped (mkCal 1 (-1) 32767 65535 0 1 (-32768) 0 2 3 4))
    by (unfold wellTyped, isInt16, isUint16; cbn; lia).
  split; [exact H |].
  exact (decode_encode refCal (mkCal 1 (-1) 32767 65535 0 1 (-32768) 0 2 3 4) H).
Defined.

Lemma readCoefficients_wellTyped_witness :
  wellTyped refCal /\ wellTyped (readCoefficients refCal [xff; xfe; x80]).
Proof.
  assert (H : wellTyped refCal) by (unfold wellTyped, isInt16, isUint16; cbn; lia).
  split; [exact H |].
  exact (readCoefficients_wellTyped refCal [xff; xfe; x80] H).
Defined.

Lemma loop_keeps_configuration_witness :
  exists s',
    loop 2 (boot (refDriver stuckBus)) = Some (tt, s')
    /\ name (dev s') = "BMP180"%string
    /\ interval (dev s') = 10 * Millisecond
    /\ mode (dev s') = BMP180UltraLowPower
    /\ calibration (dev s') = refCal.
Proof.
  destruct (loop 2 (boot (refDriver stuckBus))) as [[[] s'] |] eqn:H;
    [| vm_compute in H; discriminate H].
  exists s'. split; [reflexivity |].
  exact (loop_keeps_configuration 2 (boot (refDriver stuckBus)) s' H).
Defined.




Lemma rawTemp_short_read_witness :
  option_map fst (rawTemp (boot (uncalibrated [Ack []; Ack []; Ack [x6c]]))) = Some (0, None).
Proof.
  refine (rawTemp_short_read (boot (uncalibrated [Ack []; Ack []; Ack [x6c]]))
            [Ack []; Ack [x6c]] [Ack [x6c]] [] [x6c] _ eq_refl eq_refl eq_refl).
  cbn. lia.
Defined.

Lemma rawPressure_short_read_panics_witness :
  rawPressure (boot (uncalibrated [Ack []; Ack []; Ack [x5d; x23]])) = None.
Proof.
  refine (rawPressure_short_read_panics
            (boot (uncalibrated [Ack []; Ack []; Ack [x5d; x23]]))
            [Ack []; Ack [x5d; x23]] [Ack [x5d; x23]] [] [x5d; x23] _ eq_refl eq_refl eq_refl).
  cbn. lia.
Defined.

Lemma rawPressure_range_witness :
  exists v err s',
    rawPressure (boot (SetMode BMP180UltraHighResolution
                               (uncalibrated [Ack []; Ack []; Ack [xff; xff; xff]])))
    = Some ((v, err), s')
    /\ 0 <= v < 2 ^ (16 + 3).
Proof.
  destruct (rawPressure (boot (SetMode BMP180UltraHighResolution
                                       (uncalibrated [Ack []; Ack []; Ack [xff; xff; xff]]))))
    as [[[v err] s'] |] eqn:H; [| vm_compute in H; discriminate H].
  exists v, err, s'. split; [reflexivity |].
  refine (rawPressure_range _ s' v err _ H).
  right; right; right; left; reflexivity.
Defined.

Lemma rawPressure_unknown_mode_witness :
  exists v,
    rawPressure (boot (SetMode 7 (uncalibrated [Ack []; Ack []; Ack [x5d; x23; x00]])))
    = Some ((v, None),
            mkState (SetMode 7 (uncalibrated []))
                    [EvWrite 0x77 [xf4; xf4] None;
                     EvWrite 0x77 [xf6] None;
                     EvRead 0x77 3 [x5d; x23; x00] None]).
Proof.
  refine (rawPressure_unknown_mode
            (boot (SetMode 7 (uncalibrated [Ack []; Ack []; Ack [x5d; x23; x00]])))
            [Ack []; Ack [x5d; x23; x00]] [Ack [x5d; x23; x00]] [] x5d x23 x00 xf4
            _ eq_refl eq_refl eq_refl eq_refl).
  cbn. lia.
Defined.

Lemma compensation_panics_iff_witness :
  (calculateTemp (refDriver (C := scriptedBus) []) 27898 = None
   <-> Documented.tempDivisor refCal 27898 = 0)
  /\ (calculatePressure (refDriver (C := scriptedBus) []) 27898 23843 = None
      <-> Documented.tempDivisor refCal 27898 = 0 \/ Documented.B4 refCal 27898 = 0).
Proof.
  refine (compensation_panics_iff (refDriver (C := scriptedBus) []) 27898 23843 _).
  vm_compute. discriminate.
Defined.

Lemma zero_calibration_panics_witness :
  calibration (dev (boot (uncalibrated [Ack []; Ack []; Ack [x6c; xfa]]))) = zeroCalibration
  /\ calculateTemp (uncalibrated [Ack []; Ack []; Ack [x6c; xfa]]) 27898 = None
  /\ calculatePressure (uncalibrated [Ack []; Ack []; Ack [x6c; xfa]]) 27898 23843 = None
  /\ cycle (boot (uncalibrated [Ack []; Ack []; Ack [x6c; xfa]])) = None.
Proof.
  destruct (zero_calibration_panics
              (boot (uncalibrated [Ack []; Ack []; Ack [x6c; xfa]]))
              (mkState (uncalibrated [])
                       [EvWrite 0x77 [xf4; x2e] None;
                        EvSleep 5000000;
                        EvWrite 0x77 [xf6] None;
                        EvRead 0x77 2 [x6c; xfa] None])
              27898 23843 eq_refl) as (Ht & Hp & Hc).
  split; [reflexivity | split; [exact Ht | split; [exact Hp | exact (Hc eq_refl)]]].
Defined.

Lemma cycle_temperature_failure_witness :
  exists s',
    cycle (boot (refDriver stuckBus)) = Some (tt, s')
    /\ trace s' = [EvWrite 0x77 [xf4; x2e] (Some "i2c write failed"%string)]
                  ++ [EvPublish "i2c write failed"%string]
    /\ published (trace s') = [] ++ ["i2c write failed"%string]
    /\ Temperature (dev s') = S754_zero false
    /\ Pressure (dev s') = S754_zero false
    /\ calibration (dev s') = refCal
    /\ mode (dev s') = BMP180UltraLowPower.
Proof.
  exact (cycle_temperature_failure
           (boot (refDriver stuckBus))
           (mkState (refDriver [Nak "i2c write failed"%string])
                    [EvWrite 0x77 [xf4; x2e] (Some "i2c write failed"%string)])
           0 "i2c write failed"%string eq_refl).
Defined.

Lemma cycle_success_updates_witness :
  exists s',
    cycle (boot (refDriver [Ack []; Ack []; Ack [x6c; xfa];
                            Ack []; Ack []; Ack [x5d; x23; x00]]))
    = Some (tt, s')
    /\ Temperature (dev s') = Go.float32_of_int 15
    /\ Pressure (dev s') = Go.float32_of_int 69964
    /\ trace s' = [EvWrite 0x77 [xf4; x2e] None;
                   EvSleep 5000000;
                   EvWrite 0x77 [xf6] None;
                   EvRead 0x77 2 [x6c; xfa] None;
                   EvWrite 0x77 [xf4; x34] None;
                   EvSleep 5000000;
                   EvWrite 0x77 [xf6] None;
                   EvRead 0x77 3 [x5d; x23; x00] None]
                  ++ [EvSleep 10000000]
    /\ published (trace s') = [].
Proof.
  exact (cycle_success_updates
           (boot (refDriver [Ack []; Ack []; Ack [x6c; xfa];
                             Ack []; Ack []; Ack [x5d; x23; x00]]))
           (mkState (refDriver [Ack []; Ack []; Ack [x5d; x23; x00]])
                    [EvWrite 0x77 [xf4; x2e] None;
                     EvSleep 5000000;
                     EvWrite 0x77 [xf6] None;
                     EvRead 0x77 2 [x6c; xfa] None])
           (mkState (setTemperature (Go.float32_of_int 15) (refDriver []))
                    [EvWrite 0x77 [xf4; x2e] None;
                     EvSleep 5000000;
                     EvWrite 0x77 [xf6] None;
                     EvRead 0x77 2 [x6c; xfa] None;
                     EvWrite 0x77 [xf4; x34] None;
                     EvSleep 5000000;
                     EvWrite 0x77 [xf6] None;
                     EvRead 0x77 3 [x5d; x23; x00] None])
           27898 23843 (Go.float32_of_int 15) (Go.float32_of_int 69964)
           eq_refl eq_refl eq_refl eq_refl).
Defined.

Lemma read_error_has_no_data_witness :
  exists r err s',
    read xf6 2 (boot (uncalibrated [Ack []; Nak "i2c read failed"%string]))
    = Some ((r, err), s')
    /\ (err <> None -> r = [])
    /\ exists evs,
         trace s' = [] ++ evs
         /\ busErrors evs = errs err
         /\ sleeps evs = [] /\ published evs = []
         /\ Temperature (dev s') = S754_zero false
         /\ Pressure (dev s') = S754_zero false.
Proof.
  destruct (read xf6 2 (boot (uncalibrated [Ack []; Nak "i2c read failed"%string])))
    as [[[r err] s'] |] eqn:H; [| vm_compute in H; discriminate H].
  exists r, err, s'. split; [reflexivity |].
  exact (read_error_has_no_data _ s' xf6 2 r err H).
Defined.

Lemma pressure_command_aliases_witness :
  0 <= 7 /\ Go.add8 bmp180CmdPressure (Go.uint8 (Go.ushl 7 6)) = 0x34 + 64 * (7 mod 4).
Proof.
  assert (H : 0 <= 7) by lia.
  split; [exact H | exact (pressure_command_aliases 7 H)].
Defined.

(** ** A short calibration block *)



